(** * SLIM [slim_predict]: command-line resolution

    A shallow embedding of [parse_cmdline] from
    [src/programs/cmdline_predict.c], together with the tables it reads
    ([long_options], [ifmt_options], [helpstr], [shorthelpstr]).

    The function leaves in four ways: it returns the filled [params_t], it
    calls [exit(0)] after printing a usage text, it calls GKlib's [errexit]
    with a diagnostic, or it hands a null pointer to a routine that reads a
    string.  The embedding keeps the four apart and records, in program
    order, what was printed on standard output and which paths were handed
    to [gk_fexists]. *)

From Stdlib Require Import String Ascii List ZArith Lia Bool Permutation.
Import ListNotations.

Local Open Scope string_scope.
Local Open Scope Z_scope.

(** ** Small string helpers *)

(** The C escape [\n]. *)
Definition nl : string := String (ascii_of_nat 10) EmptyString.

(** ** The C library *)

Module Libc.

(** [isspace] in the "C" locale: space, and [\t \n \v \f \r]. *)
Definition isspace (c : ascii) : bool :=
  let n := Z.of_nat (nat_of_ascii c) in
  (n =? 32) || ((9 <=? n) && (n <=? 13)).

(** The value of a decimal digit, if [c] is one. *)
Definition digit_of (c : ascii) : option Z :=
  let n := Z.of_nat (nat_of_ascii c) in
  if (48 <=? n) && (n <=? 57) then Some (n - 48) else None.

Fixpoint skip_space (s : string) : string :=
  match s with
  | String c r => if isspace c then skip_space r else s
  | EmptyString => s
  end.

(** The longest run of decimal digits at the head of [s], accumulated
    most significant digit first. *)
Fixpoint digits_value (acc : Z) (s : string) : Z :=
  match s with
  | String c r =>
      match digit_of c with
      | Some d => digits_value (10 * acc + d) r
      | None => acc
      end
  | EmptyString => acc
  end.

Definition LONG_MAX : Z := 2 ^ 63 - 1.
Definition LONG_MIN : Z := - 2 ^ 63.

(** [strtol] saturates at the range of [long]. *)
Definition clamp_long (z : Z) : Z := Z.max LONG_MIN (Z.min LONG_MAX z).

(** An optional sign at the head of [s]: whether it is [-], and the rest. *)
Definition read_sign (s : string) : bool * string :=
  match s with
  | String c r =>
      if Ascii.eqb c "-" then (true, r)
      else if Ascii.eqb c "+" then (false, r)
      else (false, s)
  | EmptyString => (false, s)
  end.

(** Modelled from the spec: [strtol(s, NULL, 10)] is the C library's and
    not under src/; the spec (4.1, step 3) only says that the token is
    parsed as an integer.  The definition follows C11 7.22.1.4: white
    space is skipped, an optional sign is read, then the longest run of
    decimal digits; with no digit at all the result is 0. *)
Definition strtol10 (s : string) : Z :=
  let (negative, t) := read_sign (skip_space s) in
  clamp_long (if negative then - digits_value 0 t else digits_value 0 t).

(** Conversion of a [long] to a 32-bit [int], wrap-around written out. *)
Definition int_of_long (z : Z) : Z := (z + 2 ^ 31) mod 2 ^ 32 - 2 ^ 31.

(** Modelled from the spec: [atoi] is the C library's and not under src/.
    C11 7.22.1.2 defines [atoi(s)] as [(int)strtol(s, NULL, 10)] where the
    value is representable; outside the range of [int] the model wraps,
    as the conversion does on the usual LP64 platforms. *)
Definition atoi (s : string) : Z := int_of_long (strtol10 s).

End Libc.

(** ** Tables of [cmdline_predict.c] *)

(** Modelled from the spec: the [CMD_*] macros come from [slimbin.h], which
    is not under src/.  The spec (section 3, Option Table) calls them
    symbolic codes; only their being pairwise distinct, and distinct from
    ['?'] and [-1], matters to [parse_cmdline]. *)
Inductive cmd_code : Set :=
| CMD_IFMT | CMD_BINARIZE | CMD_OUTFILE | CMD_NRCMDS | CMD_DBGLVL | CMD_HELP.

(** Modelled from the spec: the [GK_CSR_FMT_*] macros come from GKlib, which
    is not under src/.  The spec (section 3) has [inputFormat] range over
    the enumeration CSR, CSR-without-values, CLUTO, IJV; the code of the
    second is [GK_CSR_FMT_METIS], as the table [ifmt_options] shows. *)
Inductive csr_fmt : Set :=
| GK_CSR_FMT_CSR | GK_CSR_FMT_METIS | GK_CSR_FMT_CLUTO | GK_CSR_FMT_IJV.

(** [struct gk_option]: name, [has_arg], and [val]; the [flag] pointer is 0
    in every row of [long_options] and is left out. *)
Record gk_option : Set := mk_option {
  opt_name : string;
  has_arg : Z;
  val : cmd_code
}.

(** The rows of [long_options] before the all-zero terminator. *)
Definition long_options : list gk_option :=
  [ mk_option "ifmt" 1 CMD_IFMT;
    mk_option "binarize" 0 CMD_BINARIZE;
    mk_option "outfile" 1 CMD_OUTFILE;
    mk_option "nrcmds" 1 CMD_NRCMDS;
    mk_option "dbglvl" 1 CMD_DBGLVL;
    mk_option "help" 0 CMD_HELP ].

(** [gk_StringMap_t]: a name and its id.  The rows of [ifmt_options] before
    the [{NULL, 0}] terminator. *)
Definition gk_StringMap_t : Set := (string * csr_fmt)%type.

Definition ifmt_options : list gk_StringMap_t :=
  [ ("csr", GK_CSR_FMT_CSR);
    ("csrnv", GK_CSR_FMT_METIS);
    ("cluto", GK_CSR_FMT_CLUTO);
    ("ijv", GK_CSR_FMT_IJV) ].

(** [helpstr].  The C source has no comma between [" "] and
    ["   -binarize"], so the two literals are one array element. *)
Definition helpstr : list string :=
  [ " ";
    " Usage:";
    "   slim_predict [options] model-file old-file [test-file]";
    " ";
    " Parameters:";
    "   model-file";
    "       The file that stores the model that was generated by slim_learn.";
    " ";
    "   old-file";
    "       The file that stores the historical information for each user.";
    " ";
    "   test-file";
    "       The file that stores the hidden items for each user.";
    " ";
    " Options:";
    "   -ifmt=string";
    "      Specifies the format of the input files. Available options are:";
    "        csr     -  CSR format [default].";
    "        csrnv   -  CSR format without ratings.";
    "        cluto   -  Format used by CLUTO.";
    "        ijv     -  One (row#, col#, val) per line.";
    " " ++ "   -binarize";
    "      Specifies that the ratings should be binarized.";
    " ";
    "   -outfile=string";
    "      Specifies the output file that will store the predictions.";
    "      If not specified, no output will be produced.";
    " ";
    "   -nrcmds=int";
    "      Specifies the number of items to recommend for each user.";
    "      The default value is 10.";
    " ";
    "   -dbglvl=int";
    "      Specifies the debug level. The default value is 0.";
    " ";
    "   -help";
    "      Prints this message.";
    " ";
    EmptyString ].

(** [shorthelpstr]. *)
Definition shorthelpstr : list string :=
  [ " ";
    " Usage: slim_predict [options] model-file old-file [test-file]";
    "   use 'slim_predict -help' for a summary of the options.";
    EmptyString ].

(** ** [params_t] *)

(** Modelled from the spec: [params_t] is declared in [slimbin.h], which is
    not under src/.  The fields are those [parse_cmdline] assigns; the
    [int] fields are [Z], the [char *] fields are [option string] with
    [None] for the null pointer. *)
Record params_t : Set := mk_params {
  ifmt : csr_fmt;
  readvals : Z;
  binarize : Z;
  outfile : option string;
  tstfile : option string;
  nrcmds : Z;
  dbglvl : Z;
  mdlfile : option string;
  trnfile : option string
}.

Definition set_ifmt (v : csr_fmt) (p : params_t) : params_t :=
  mk_params v (readvals p) (binarize p) (outfile p) (tstfile p)
            (nrcmds p) (dbglvl p) (mdlfile p) (trnfile p).
Definition set_readvals (v : Z) (p : params_t) : params_t :=
  mk_params (ifmt p) v (binarize p) (outfile p) (tstfile p)
            (nrcmds p) (dbglvl p) (mdlfile p) (trnfile p).
Definition set_binarize (v : Z) (p : params_t) : params_t :=
  mk_params (ifmt p) (readvals p) v (outfile p) (tstfile p)
            (nrcmds p) (dbglvl p) (mdlfile p) (trnfile p).
Definition set_outfile (v : option string) (p : params_t) : params_t :=
  mk_params (ifmt p) (readvals p) (binarize p) v (tstfile p)
            (nrcmds p) (dbglvl p) (mdlfile p) (trnfile p).
Definition set_tstfile (v : option string) (p : params_t) : params_t :=
  mk_params (ifmt p) (readvals p) (binarize p) (outfile p) v
            (nrcmds p) (dbglvl p) (mdlfile p) (trnfile p).
Definition set_nrcmds (v : Z) (p : params_t) : params_t :=
  mk_params (ifmt p) (readvals p) (binarize p) (outfile p) (tstfile p)
            v (dbglvl p) (mdlfile p) (trnfile p).
Definition set_dbglvl (v : Z) (p : params_t) : params_t :=
  mk_params (ifmt p) (readvals p) (binarize p) (outfile p) (tstfile p)
            (nrcmds p) v (mdlfile p) (trnfile p).
Definition set_mdlfile (v : option string) (p : params_t) : params_t :=
  mk_params (ifmt p) (readvals p) (binarize p) (outfile p) (tstfile p)
            (nrcmds p) (dbglvl p) v (trnfile p).
Definition set_trnfile (v : option string) (p : params_t) : params_t :=
  mk_params (ifmt p) (readvals p) (binarize p) (outfile p) (tstfile p)
            (nrcmds p) (dbglvl p) (mdlfile p) v.

(** [memset] zeroes the structure, which leaves [mdlfile] and [trnfile]
    null; the block under "setup defaults" then assigns the other seven
    fields. *)
Definition defaults : params_t :=
  mk_params GK_CSR_FMT_CSR 1 0 None None 10 0 None None.

(** ** Ways of leaving [parse_cmdline] *)

(** What the caller's environment observes while the function runs. *)
Inductive event : Set :=
| Printf (text : string)      (* [printf] on standard output *)
| Fexists (path : string).    (* a call of [gk_fexists] *)

(** Places where the code hands on a pointer that holds no string; what
    happens from there is not decided in [cmdline_predict.c]. *)
Inductive undefined : Set :=
| NullOptarg (c : option cmd_code)  (* [gk_optarg] is null where a string is read *)
| PastArgv (i : nat).               (* [argv[i]] with no token at index [i] *)

Inductive status (A : Type) : Type :=
| Returned (a : A)           (* control reaches the next statement *)
| Exit (code : Z)            (* [exit(code)] *)
| Errexit (msg : string)     (* GKlib [errexit]: diagnostic, failure termination *)
| Undefined (u : undefined).

Arguments Returned {A} a.
Arguments Exit {A} code.
Arguments Errexit {A} msg.
Arguments Undefined {A} u.

(** A computation: the events it caused, in order, and how it ended. *)
Definition run (A : Type) : Type := (list event * status A)%type.

Definition ret {A} (a : A) : run A := ([], Returned a).

Definition bind {A B} (m : run A) (k : A -> run B) : run B :=
  match m with
  | (log, Returned a) => let (log', r) := k a in ((log ++ log')%list, r)
  | (log, Exit c) => (log, Exit c)
  | (log, Errexit msg) => (log, Errexit msg)
  | (log, Undefined u) => (log, Undefined u)
  end.

Declare Scope run_scope.
Delimit Scope run_scope with run.
Notation "x <- m ;; k" := (bind m (fun x => k))
  (at level 61, m at next level, right associativity) : run_scope.
Notation "m ;;; k" := (bind m (fun _ => k))
  (at level 61, right associativity) : run_scope.
Local Open Scope run_scope.

Definition printf (text : string) : run unit := ([Printf text], Returned tt).
Definition exit {A} (code : Z) : run A := ([], Exit code).
Definition undefined_read {A} (u : undefined) : run A := ([], Undefined u).

(** ** GKlib *)

Module GKlib.

(** Modelled from the spec: [errexit] is GKlib's and not under src/.  The
    spec (section 7) has a validation failure print its message and end
    the process as a failure; [msg] is the formatted text. *)
Definition errexit {A} (msg : string) : run A := ([], Errexit msg).

(** Modelled from the spec: [gk_GetStringID] is GKlib's and not under
    src/.  The spec (4.1, step 3) has it look the supplied value up in the
    map, a miss being reported; the C caller tests the miss as [-1], here
    [None].  Names are compared as they are written in the table. *)
Fixpoint gk_GetStringID (strmap : list gk_StringMap_t) (key : string)
  : option csr_fmt :=
  match strmap with
  | [] => None
  | (name, id) :: rest =>
      if String.eqb key name then Some id else gk_GetStringID rest key
  end.

(** What one call of [gk_getopt_long_only] returns, other than [-1]. *)
Inductive getopt_ret : Set :=
| RetVal (c : cmd_code)     (* the [val] of the long option found *)
| RetQuestion               (* ['?'] *)
| RetOther (z : Z).         (* an [int] with no [case] of its own *)

(** The successive calls of [gk_getopt_long_only] on one argument vector,
    seen from the caller: what each call before the one returning [-1]
    returned, with [gk_optarg] as that call left it; and, at the call
    returning [-1], the argument vector (the scanner may reorder it) and
    [gk_optind]. *)
Record getopt_run : Set := mk_getopt_run {
  results : list (getopt_ret * option string);
  end_argv : list string;
  end_optind : nat
}.

End GKlib.
Import GKlib.

(** ** [parse_cmdline] *)

Section ParseCmdline.

(** The scanner and the file system are outside [cmdline_predict.c]; the
    function is embedded over any behaviour of the two. *)
Variable gk_getopt_long_only : list string -> getopt_run.
Variable file_exists : string -> bool.

(** [gk_fexists(path)], the call recorded. *)
Definition gk_fexists (path : string) : run bool :=
  ([Fexists path], Returned (file_exists path)).

(** [for (int i = 0; strlen(tbl[i]) > 0; i++) printf("%s\n", tbl[i]);] *)
Fixpoint print_table (tbl : list string) : run unit :=
  match tbl with
  | [] => ret tt
  | line :: rest =>
      if (0 <? String.length line)%nat
      then printf (line ++ nl) ;;; print_table rest
      else ret tt
  end.

(** [gk_optarg] where the code reads it as a string. *)
Definition optarg_string (c : option cmd_code) (gk_optarg : option string)
  : run string :=
  match gk_optarg with
  | Some v => ret v
  | None => undefined_read (NullOptarg c)
  end.

(** [argv[i]] where the code copies it as a string. *)
Definition argv_token (argv : list string) (i : nat) : run string :=
  match nth_error argv i with
  | Some tok => ret tok
  | None => undefined_read (PastArgv i)
  end.

(** The body of the [switch (c)]. *)
Definition switch (c : getopt_ret) (gk_optarg : option string)
           (params : params_t) : run params_t :=
  match c with
  | RetVal CMD_IFMT =>
      v <- optarg_string (Some CMD_IFMT) gk_optarg ;;
      match gk_GetStringID ifmt_options v with
      | None => errexit ("Invalid -ifmt of " ++ v ++ "." ++ nl)
      | Some id =>
          let params := set_ifmt id params in
          (* deal with the no-ratings case *)
          match ifmt params with
          | GK_CSR_FMT_METIS =>
              ret (set_readvals 0 (set_ifmt GK_CSR_FMT_CSR params))
          | _ => ret params
          end
      end
  | RetVal CMD_BINARIZE => ret (set_binarize 1 params)
  | RetVal CMD_OUTFILE =>
      v <- optarg_string (Some CMD_OUTFILE) gk_optarg ;;
      ret (set_outfile (Some v) params)
  | RetVal CMD_DBGLVL =>
      v <- optarg_string (Some CMD_DBGLVL) gk_optarg ;;
      let params := set_dbglvl (Libc.atoi v) params in
      if dbglvl params <? 0
      then errexit ("The -dbglvl parameter should be non-negative." ++ nl)
      else ret params
  | RetVal CMD_NRCMDS =>
      v <- optarg_string (Some CMD_NRCMDS) gk_optarg ;;
      let params := set_nrcmds (Libc.atoi v) params in
      if nrcmds params <? 0
      then errexit ("The -nrcmds parameter should be non-negative." ++ nl)
      else ret params
  | RetQuestion
  | RetVal CMD_HELP =>
      print_table helpstr ;;; exit 0
  | RetOther _ =>
      v <- optarg_string None gk_optarg ;;
      printf ("Illegal command-line option(s) " ++ v ++ nl) ;;; exit 0
  end.

(** [while ((c = gk_getopt_long_only(...)) != -1) switch (c) ...], over
    what the successive calls return. *)
Fixpoint option_loop (rs : list (getopt_ret * option string))
         (params : params_t) : run params_t :=
  match rs with
  | [] => ret params
  | (c, gk_optarg) :: rest =>
      params <- switch c gk_optarg params ;;
      option_loop rest params
  end.

(** The statements after the loop: the guard on [argc - gk_optind] and the
    three file arguments. *)
Definition get_datafiles (argc : Z) (argv : list string) (gk_optind : nat)
           (params : params_t) : run params_t :=
  if (argc - Z.of_nat gk_optind <? 1) || (argc - Z.of_nat gk_optind >? 3)
  then print_table shorthelpstr ;;; exit 0
  else
    mdl <- argv_token argv gk_optind ;;
    let gk_optind := S gk_optind in
    let params := set_mdlfile (Some mdl) params in
    found <- gk_fexists mdl ;;
    (if negb found
     then errexit ("Input model file " ++ mdl ++ " does not exist." ++ nl)
     else ret tt) ;;;
    trn <- argv_token argv gk_optind ;;
    let gk_optind := S gk_optind in
    let params := set_trnfile (Some trn) params in
    found <- gk_fexists trn ;;
    (if negb found
     then errexit ("Input old file " ++ trn ++ " does not exist." ++ nl)
     else ret tt) ;;;
    if argc - Z.of_nat gk_optind =? 1
    then
      tst <- argv_token argv gk_optind ;;
      let params := set_tstfile (Some tst) params in
      found <- gk_fexists tst ;;
      (if negb found
       then errexit ("Input test file " ++ tst ++ " does not exist." ++ nl)
       else ret tt) ;;;
      ret params
    else ret params.

Definition parse_cmdline (argv : list string) : run params_t :=
  let argc := Z.of_nat (length argv) in
  let scan := gk_getopt_long_only argv in
  params <- option_loop (results scan) defaults ;;
  get_datafiles argc (end_argv scan) (end_optind scan) params.

(** The tokens the scanner leaves from [gk_optind] on. *)
Definition positional (scan : getopt_run) : list string :=
  skipn (end_optind scan) (end_argv scan).

End ParseCmdline.

(** ** A scanner *)

Module Getopt.

(** Whether options may follow file arguments (GNU's default, the
    arguments being moved behind the options) or the scan stops at the
    first token that is not an option (when [POSIXLY_CORRECT] is set). *)
Inductive ordering : Set := REQUIRE_ORDER | PERMUTE.

(** An option element starts with [-] and is longer than that. *)
Definition is_option_element (tok : string) : bool :=
  match tok with
  | String "-" (String _ _) => true
  | _ => false
  end.

(** The element without its one or two leading dashes. *)
Definition option_text (tok : string) : string :=
  match tok with
  | String "-" (String "-" rest) => rest
  | String "-" rest => rest
  | _ => tok
  end.

(** [name=value] split at the first [=]. *)
Fixpoint split_eq (s : string) : string * option string :=
  match s with
  | EmptyString => (EmptyString, None)
  | String c rest =>
      if Ascii.eqb c "=" then (EmptyString, Some rest)
      else let (name, value) := split_eq rest in (String c name, value)
  end.

(** An exact name wins; otherwise an abbreviation that fits one row only. *)
Definition find_long_option (name : string) : option gk_option :=
  match filter (fun o => String.eqb (opt_name o) name) long_options with
  | o :: _ => Some o
  | [] =>
      match filter (fun o => String.prefix name (opt_name o)) long_options with
      | [o] => Some o
      | _ => None
      end
  end.

(** Results of the calls, option elements taken, file arguments left. *)
Definition scanned : Set :=
  (list (getopt_ret * option string) * list string * list string)%type.

Definition took (r : getopt_ret * option string) (elems : list string)
           (s : scanned) : scanned :=
  let '(rs, opts, nonopts) := s in (r :: rs, (elems ++ opts)%list, nonopts).

Fixpoint scan (ord : ordering) (toks : list string) : scanned :=
  match toks with
  | [] => ([], [], [])
  | tok :: tl =>
      if String.eqb tok "--" then ([], [tok], tl)
      else if is_option_element tok then
        let (name, attached) := split_eq (option_text tok) in
        match find_long_option name with
        | None => took (RetQuestion, None) [tok] (scan ord tl)
        | Some o =>
            match attached with
            | Some v =>
                if has_arg o =? 0
                then took (RetQuestion, None) [tok] (scan ord tl)
                else took (RetVal (val o), Some v) [tok] (scan ord tl)
            | None =>
                if has_arg o =? 1
                then match tl with
                     | [] => took (RetQuestion, None) [tok] ([], [], [])
                     | v :: tl' =>
                         took (RetVal (val o), Some v) [tok; v] (scan ord tl')
                     end
                else took (RetVal (val o), None) [tok] (scan ord tl)
            end
        end
      else
        match ord with
        | REQUIRE_ORDER => ([], [], toks)
        | PERMUTE =>
            let '(rs, opts, nonopts) := scan ord tl in
            (rs, opts, tok :: nonopts)
        end
  end.

(** Modelled from the spec: [gk_getopt_long_only] is GKlib's and not under
    src/.  The spec (4.1, step 2; section 6) has tokens scanned left to
    right, a token that names a row of the option table taken together
    with its value where the row asks for one, written [-name=value] or
    as the next token, and anything else that looks like an option
    reported as unrecognised.  What the spec leaves open follows
    getopt_long_only(3), of which the GKlib routine is a copy, called
    here with an empty short-option string: one or two leading dashes,
    unique abbreviations, [--] ending the options, a missing or an
    unexpected value reported as ['?'], and the two orderings. *)
Definition gk_getopt_long_only (ord : ordering) (argv : list string)
  : getopt_run :=
  match argv with
  | [] => mk_getopt_run [] [] 1
  | prog :: toks =>
      let '(rs, opts, nonopts) := scan ord toks in
      mk_getopt_run rs (prog :: opts ++ nonopts)%list (S (length opts))
  end.

End Getopt.

(** [parse_cmdline] with that scanner. *)
Definition slim_predict (ord : Getopt.ordering) (file_exists : string -> bool)
           (argv : list string) : run params_t :=
  parse_cmdline (Getopt.gk_getopt_long_only ord) file_exists argv.

(** ** Vocabulary of the statements *)

(** The lines of a table that the printing loop reaches: those before the
    first empty one. *)
Fixpoint printed (tbl : list string) : list string :=
  match tbl with
  | [] => []
  | line :: rest =>
      if (0 <? String.length line)%nat then line :: printed rest else []
  end.

(** [argc - gk_optind] at the end of the scan. *)
Definition file_count (argv : list string) (scan : getopt_run) : Z :=
  Z.of_nat (length argv) - Z.of_nat (end_optind scan).

(** The diagnostics of the three existence checks, by position. *)
Definition missing_file (i : nat) (path : string) : string :=
  match i with
  | O => "Input model file " ++ path ++ " does not exist." ++ nl
  | S O => "Input old file " ++ path ++ " does not exist." ++ nl
  | _ => "Input test file " ++ path ++ " does not exist." ++ nl
  end.

(** The options that change a field of [params_t]. *)
Definition setting_option (c : getopt_ret) : Prop :=
  In c [RetVal CMD_IFMT; RetVal CMD_BINARIZE; RetVal CMD_OUTFILE;
        RetVal CMD_NRCMDS; RetVal CMD_DBGLVL].

(** [atoi] finds a number at the head of the token: after white space and
    an optional sign comes a decimal digit. *)
Definition starts_with_digit (s : string) : bool :=
  match s with
  | String c _ => match Libc.digit_of c with Some _ => true | None => false end
  | EmptyString => false
  end.

Definition has_integer_prefix (s : string) : bool :=
  starts_with_digit (snd (Libc.read_sign (Libc.skip_space s))).

Fixpoint all_digits (s : string) : bool :=
  match s with
  | String c r =>
      match Libc.digit_of c with Some _ => all_digits r | None => false end
  | EmptyString => true
  end.

(** A token that is a decimal integer and nothing else: an optional sign
    and one digit or more, up to the end of the token. *)
Definition valid_integer (s : string) : bool :=
  let t := snd (Libc.read_sign s) in starts_with_digit t && all_digits t.

(** The tokens a scan has gone through, options first. *)
Definition tokens_of (s : Getopt.scanned) : list string :=
  (snd (fst s) ++ snd s)%list.

(** ** Invocations used as instances *)

(** A file system in which every path exists, and one in which exactly the
    listed paths do. *)
Definition every_file (path : string) : bool := true.

Definition only_files (present : list string) (path : string) : bool :=
  existsb (String.eqb path) present.

(** [slim_predict model.bin old.csr] *)
Definition argv_two : list string :=
  ["slim_predict"; "model.bin"; "old.csr"].

(** [slim_predict -ifmt=ijv -nrcmds=5 -outfile=out.txt model.bin old.csr test.csr] *)
Definition argv_three : list string :=
  ["slim_predict"; "-ifmt=ijv"; "-nrcmds=5"; "-outfile=out.txt";
   "model.bin"; "old.csr"; "test.csr"].

(** [slim_predict model.bin] *)
Definition argv_one : list string := ["slim_predict"; "model.bin"].

(** [slim_predict -ifmt=csrnv model.bin old.csr] *)
Definition argv_csrnv : list string :=
  ["slim_predict"; "-ifmt=csrnv"; "model.bin"; "old.csr"].

(** [slim_predict -ifmt=csrnv -ifmt=ijv model.bin old.csr] *)
Definition argv_csrnv_ijv : list string :=
  ["slim_predict"; "-ifmt=csrnv"; "-ifmt=ijv"; "model.bin"; "old.csr"].

(** [slim_predict -ifmt=bogus model.bin old.csr] *)
Definition argv_bogus : list string :=
  ["slim_predict"; "-ifmt=bogus"; "model.bin"; "old.csr"].

(** [slim_predict -binarize -nrcmds=-1 model.bin old.csr] *)
Definition argv_negative : list string :=
  ["slim_predict"; "-binarize"; "-nrcmds=-1"; "model.bin"; "old.csr"].

(** [slim_predict -binarize -help model.bin old.csr] *)
Definition argv_help : list string :=
  ["slim_predict"; "-binarize"; "-help"; "model.bin"; "old.csr"].

(** [slim_predict -nrcmds=12abc model.bin old.csr] *)
Definition argv_12abc : list string :=
  ["slim_predict"; "-nrcmds=12abc"; "model.bin"; "old.csr"].

(** [slim_predict -dbglvl=-5x model.bin old.csr] *)
Definition argv_minus5x : list string :=
  ["slim_predict"; "-dbglvl=-5x"; "model.bin"; "old.csr"].

(** What a handler of the [switch] that returns has done to the draft. *)
Inductive handled (p : params_t)
  : getopt_ret -> option string -> params_t -> Prop :=
| handled_ifmt v id :
    gk_GetStringID ifmt_options v = Some id ->
    id <> GK_CSR_FMT_METIS ->
    handled p (RetVal CMD_IFMT) (Some v) (set_ifmt id p)
| handled_csrnv v :
    gk_GetStringID ifmt_options v = Some GK_CSR_FMT_METIS ->
    handled p (RetVal CMD_IFMT) (Some v)
      (set_readvals 0 (set_ifmt GK_CSR_FMT_CSR (set_ifmt GK_CSR_FMT_METIS p)))
| handled_binarize oa :
    handled p (RetVal CMD_BINARIZE) oa (set_binarize 1 p)
| handled_outfile v :
    handled p (RetVal CMD_OUTFILE) (Some v) (set_outfile (Some v) p)
| handled_dbglvl v :
    0 <= Libc.atoi v ->
    handled p (RetVal CMD_DBGLVL) (Some v) (set_dbglvl (Libc.atoi v) p)
| handled_nrcmds v :
    0 <= Libc.atoi v ->
    handled p (RetVal CMD_NRCMDS) (Some v) (set_nrcmds (Libc.atoi v) p).

(** The loop, as a chain of handled results. *)
Inductive looped : list (getopt_ret * option string) ->
                   params_t -> params_t -> Prop :=
| looped_nil p : looped [] p p
| looped_cons c oa rest p p1 p' :
    handled p c oa p1 -> looped rest p1 p' ->
    looped ((c, oa) :: rest) p p'.


(** ** Vocabulary of the further properties *)

(** Whether a result of the scanner is the code of option [c]. *)
Definition is_option (c : cmd_code) (r : getopt_ret) : bool :=
  match r, c with
  | RetVal CMD_IFMT, CMD_IFMT
  | RetVal CMD_BINARIZE, CMD_BINARIZE
  | RetVal CMD_OUTFILE, CMD_OUTFILE
  | RetVal CMD_NRCMDS, CMD_NRCMDS
  | RetVal CMD_DBGLVL, CMD_DBGLVL
  | RetVal CMD_HELP, CMD_HELP => true
  | _, _ => false
  end.

(** The value handed over with the last occurrence of option [c]. *)
Fixpoint last_value (c : cmd_code) (rs : list (getopt_ret * option string))
  : option string :=
  match rs with
  | [] => None
  | (r, oa) :: rest =>
      match last_value c rest with
      | Some v => Some v
      | None => if is_option c r then oa else None
      end
  end.

(** [-ifmt] with the value [csrnv]. *)
Definition is_csrnv (r : getopt_ret * option string) : bool :=
  match r with
  | (RetVal CMD_IFMT, Some v) => String.eqb v "csrnv"
  | _ => false
  end.

(** What is left in [ifmt] for the id found in [ifmt_options]. *)
Definition stored_format (id : csr_fmt) : csr_fmt :=
  match id with
  | GK_CSR_FMT_METIS => GK_CSR_FMT_CSR
  | _ => id
  end.

(** A result of the scanner whose [case] ends in [break]. *)
Definition acceptable (r : getopt_ret * option string) : bool :=
  match r with
  | (RetVal CMD_IFMT, Some v) =>
      match gk_GetStringID ifmt_options v with
      | Some _ => true
      | None => false
      end
  | (RetVal CMD_BINARIZE, _) => true
  | (RetVal CMD_OUTFILE, Some _) => true
  | (RetVal CMD_DBGLVL, Some v) => 0 <=? Libc.atoi v
  | (RetVal CMD_NRCMDS, Some v) => 0 <=? Libc.atoi v
  | _ => false
  end.

(** The paths held by the file fields, in the order they are set. *)
Definition opt_list {A : Type} (o : option A) : list A :=
  match o with
  | Some a => [a]
  | None => []
  end.

Definition files_of (p : params_t) : list string :=
  (opt_list (mdlfile p) ++ opt_list (trnfile p) ++ opt_list (tstfile p))%list.

(** Standard output is written only by a run that ends in [exit(0)], and a
    run that ends in [exit] has looked up no file. *)
Definition disciplined {A : Type} (r : run A) : Prop :=
  (forall text, In (Printf text) (fst r) -> snd r = Exit 0) /\
  (forall code, snd r = Exit code ->
     code = 0 /\ forall path, ~ In (Fexists path) (fst r)).




(** A file system that agrees with every path being there on
    [model.bin] and [old.csr], and has nothing else. *)
Definition two_files : string -> bool := only_files ["model.bin"; "old.csr"].

(** A scanner that hands over [-binarize] and then a code which the
    [switch] has no [case] for. *)
Definition scanner_other (argv : list string) : getopt_run :=
  mk_getopt_run [(RetVal CMD_BINARIZE, None); (RetOther 0, Some "-x")]
                argv 1.

(** [slim_predict] *)
Definition argv_none : list string := ["slim_predict"].

(** [slim_predict -nrcmds=3 -binarize -outfile=a.txt -nrcmds=7 -dbglvl=2
    -outfile=b.txt -ifmt=csrnv -ifmt=cluto model.bin old.csr] *)
Definition argv_repeated : list string :=
  ["slim_predict"; "-nrcmds=3"; "-binarize"; "-outfile=a.txt"; "-nrcmds=7";
   "-dbglvl=2"; "-outfile=b.txt"; "-ifmt=csrnv"; "-ifmt=cluto";
   "model.bin"; "old.csr"].

(** * Properties *)

#[local] Arguments gk_GetStringID : simpl never.
#[local] Arguments Libc.atoi : simpl never.
#[local] Arguments String.append : simpl never.

(** ** The [run] monad *)

Lemma bind_ret_l {A B} (a : A) (k : A -> run B) : bind (ret a) k = k a.
Proof. unfold bind, ret. destruct (k a); reflexivity. Qed.

Lemma bind_returned {A B} (a : A) (k : A -> run B) :
  bind ([], Returned a) k = k a.
Proof. exact (bind_ret_l a k). Qed.

Lemma bind_assoc {A B C} (m : run A) (k : A -> run B) (h : B -> run C) :
  bind (bind m k) h = bind m (fun a => bind (k a) h).
Proof.
  destruct m as [log [a | code | msg | u]]; simpl; try reflexivity.
  destruct (k a) as [log1 [b | code | msg | u]]; simpl; try reflexivity.
  destruct (h b) as [log2 r]. now rewrite app_assoc.
Qed.

(** A sequence that returns is made of two parts that return. *)
Lemma bind_inv_returned {A B} (m : run A) (k : A -> run B) log (b : B) :
  bind m k = (log, Returned b) ->
  exists log1 a log2,
    m = (log1, Returned a) /\ k a = (log2, Returned b) /\
    log = (log1 ++ log2)%list.
Proof.
  destruct m as [log1 [a | code | msg | u]]; simpl; try discriminate.
  destruct (k a) as [log2 r] eqn:Hk. intros H.
  injection H as <- ->. now exists log1, a, log2.
Qed.

(** ** Printing a table *)

Section Facts.

Variable gk_getopt_long_only : list string -> getopt_run.
Variable file_exists : string -> bool.

Lemma print_table_run (tbl : list string) :
  print_table tbl
  = (map (fun line => Printf (line ++ nl)) (printed tbl), Returned tt).
Proof.
  induction tbl as [| line rest IH]; simpl; [reflexivity |].
  destruct (0 <? String.length line)%nat; [| reflexivity].
  unfold printf, bind. rewrite IH. reflexivity.
Qed.

Lemma print_table_exit (A : Type) (tbl : list string) :
  (print_table tbl ;;; exit 0)
  = (map (fun line => Printf (line ++ nl)) (printed tbl), @Exit A 0).
Proof.
  rewrite print_table_run. unfold bind, exit. now rewrite app_nil_r.
Qed.

(** ** The option loop *)

(** A handler that returns has printed nothing. *)
Lemma switch_returned_log c oa p log p' :
  switch c oa p = (log, Returned p') -> log = [].
Proof.
  unfold switch, optarg_string.
  destruct c as [[] | | z]; destruct oa as [v |];
    rewrite ?bind_ret_l, ?print_table_exit;
    unfold undefined_read, errexit, ret; simpl; try congruence.
  - destruct (gk_GetStringID ifmt_options v) as [[] |]; simpl; congruence.
  - destruct (Libc.atoi v <? 0); congruence.
  - destruct (Libc.atoi v <? 0); congruence.
Qed.

Lemma option_loop_returned_log rs : forall p log p',
  option_loop rs p = (log, Returned p') -> log = [].
Proof.
  induction rs as [| [c oa] rest IH]; simpl; intros p log p' H.
  - now injection H as <- _.
  - apply bind_inv_returned in H as (l1 & a & l2 & H1 & H2 & ->).
    apply switch_returned_log in H1 as ->. apply IH in H2 as ->.
    reflexivity.
Qed.

Lemma option_loop_snd rs p p' :
  snd (option_loop rs p) = Returned p' ->
  option_loop rs p = ([], Returned p').
Proof.
  destruct (option_loop rs p) as [log r] eqn:H. simpl. intros ->.
  now rewrite (option_loop_returned_log _ _ _ _ H).
Qed.

Lemma option_loop_app rs1 rs2 p :
  option_loop (rs1 ++ rs2) p
  = bind (option_loop rs1 p) (option_loop rs2).
Proof.
  revert p. induction rs1 as [| [c oa] rest IH]; intros p;
    cbn [app option_loop].
  - now rewrite bind_ret_l.
  - rewrite bind_assoc.
    destruct (switch c oa p) as [log [a | code | msg | u]];
      cbn [bind]; try reflexivity.
    now rewrite IH.
Qed.


(** The run from the point where the scanner hands over one result, the
    results before it having been handled. *)
Lemma parse_cmdline_at argv before c oa after params :
  results (gk_getopt_long_only argv) = (before ++ (c, oa) :: after)%list ->
  snd (option_loop before defaults) = Returned params ->
  parse_cmdline gk_getopt_long_only file_exists argv
  = (p <- switch c oa params ;;
     p <- option_loop after p ;;
     get_datafiles file_exists (Z.of_nat (length argv))
       (end_argv (gk_getopt_long_only argv))
       (end_optind (gk_getopt_long_only argv)) p).
Proof.
  intros Hres Hbefore. unfold parse_cmdline. cbv zeta.
  rewrite Hres, option_loop_app, (option_loop_snd _ _ _ Hbefore).
  rewrite bind_returned. cbn [option_loop]. now rewrite bind_assoc.
Qed.

Lemma parse_cmdline_done argv params :
  snd (option_loop (results (gk_getopt_long_only argv)) defaults)
  = Returned params ->
  parse_cmdline gk_getopt_long_only file_exists argv
  = get_datafiles file_exists (Z.of_nat (length argv))
      (end_argv (gk_getopt_long_only argv))
      (end_optind (gk_getopt_long_only argv)) params.
Proof.
  intros H. unfold parse_cmdline. cbv zeta.
  now rewrite (option_loop_snd _ _ _ H), bind_returned.
Qed.

(** A run that returns went through the loop and the file arguments. *)
Lemma parse_cmdline_returned argv log p :
  parse_cmdline gk_getopt_long_only file_exists argv = (log, Returned p) ->
  exists params,
    option_loop (results (gk_getopt_long_only argv)) defaults
    = ([], Returned params) /\
    get_datafiles file_exists (Z.of_nat (length argv))
      (end_argv (gk_getopt_long_only argv))
      (end_optind (gk_getopt_long_only argv)) params = (log, Returned p).
Proof.
  unfold parse_cmdline. cbv zeta. intros H.
  apply bind_inv_returned in H as (l1 & params & l2 & H1 & H2 & ->).
  pose proof (option_loop_returned_log _ _ _ _ H1) as ->.
  now exists params.
Qed.

(** ** The file arguments *)

(** What the tokens left by the scanner say about [argc - gk_optind] and
    about the reads [argv[gk_optind++]]. *)
Lemma positional_facts (argv : list string) (optind : nat) toks :
  skipn optind argv = toks ->
  toks <> [] ->
  Z.of_nat (length argv) - Z.of_nat optind = Z.of_nat (length toks) /\
  nth_error argv optind = nth_error toks 0 /\
  nth_error argv (S optind) = nth_error toks 1 /\
  nth_error argv (S (S optind)) = nth_error toks 2.
Proof.
  intros Hskip Hne.
  assert (Hlen : length toks = (length argv - optind)%nat)
    by (rewrite <- Hskip; apply length_skipn).
  assert (0 < length toks)%nat by (destruct toks; simpl; [easy | lia]).
  split; [lia |].
  rewrite <- Hskip, !nth_error_skipn.
  now rewrite Nat.add_0_r, Nat.add_1_r, (Nat.add_comm optind 2).
Qed.

(** Outside one to three file arguments: the short usage text, and no
    file is looked at. *)
Lemma get_datafiles_usage argc argv optind params :
  argc - Z.of_nat optind < 1 \/ 3 < argc - Z.of_nat optind ->
  get_datafiles file_exists argc argv optind params
  = (map (fun line => Printf (line ++ nl)) (printed shorthelpstr), Exit 0).
Proof.
  intros H. unfold get_datafiles.
  replace ((argc - Z.of_nat optind <? 1) || (argc - Z.of_nat optind >? 3))
    with true by (symmetry; apply orb_true_iff; lia).
  apply print_table_exit.
Qed.

Lemma guard_false argc optind n :
  argc - Z.of_nat optind = Z.of_nat n -> (1 <= n <= 3)%nat ->
  (argc - Z.of_nat optind <? 1) || (argc - Z.of_nat optind >? 3) = false.
Proof. intros. apply orb_false_iff. lia. Qed.

(** With exactly one file argument the guard lets the run through, the
    token is taken as the model file, and the next read is [argv[argc]]. *)
Lemma get_datafiles_one argv optind params tok :
  skipn optind argv = [tok] ->
  get_datafiles file_exists (Z.of_nat (length argv)) argv optind params
  = if file_exists tok
    then ([Fexists tok], Undefined (PastArgv (length argv)))
    else ([Fexists tok], Errexit (missing_file 0 tok)).
Proof.
  intros Hskip.
  destruct (positional_facts _ _ _ Hskip) as (Hc & H0 & H1 & _);
    [discriminate |].
  assert (Hargc : S optind = length argv) by (simpl in Hc; lia).
  unfold get_datafiles, argv_token.
  rewrite (guard_false _ _ 1 Hc) by lia.
  rewrite H0, H1. cbn [nth_error]. rewrite bind_ret_l.
  unfold gk_fexists, missing_file, errexit, undefined_read.
  rewrite Hargc. destruct (file_exists tok); reflexivity.
Qed.

(** Two or three file arguments that all exist. *)
Lemma get_datafiles_found argv optind params toks :
  skipn optind argv = toks ->
  (length toks = 2 \/ length toks = 3)%nat ->
  Forall (fun t => file_exists t = true) toks ->
  get_datafiles file_exists (Z.of_nat (length argv)) argv optind params
  = (map Fexists toks,
     Returned (mk_params (ifmt params) (readvals params) (binarize params)
                 (outfile params)
                 (match nth_error toks 2 with
                  | Some tst => Some tst
                  | None => tstfile params
                  end)
                 (nrcmds params) (dbglvl params)
                 (nth_error toks 0) (nth_error toks 1))).
Proof.
  intros Hskip Hlen Hall.
  destruct (positional_facts _ _ _ Hskip) as (Hc & H0 & H1 & H2);
    [destruct toks; simpl in Hlen; [lia | discriminate] |].
  unfold get_datafiles, argv_token.
  rewrite (guard_false _ _ _ Hc) by lia.
  rewrite H0, H1, H2.
  destruct toks as [| t0 [| t1 [| t2 [| t3 rest]]]]; simpl in Hlen; try lia.
  - inversion Hall as [| ? ? E0 Hall1]; subst.
    inversion Hall1 as [| ? ? E1 _]; subst.
    replace (Z.of_nat (length argv) - Z.of_nat (S (S optind)) =? 1)
      with false by (symmetry; apply Z.eqb_neq; simpl in Hc; lia).
    unfold gk_fexists. cbn [nth_error]. rewrite !bind_ret_l.
    cbn [bind]. rewrite E0, E1. reflexivity.
  - inversion Hall as [| ? ? E0 Hall1]; subst.
    inversion Hall1 as [| ? ? E1 Hall2]; subst.
    inversion Hall2 as [| ? ? E2 _]; subst.
    replace (Z.of_nat (length argv) - Z.of_nat (S (S optind)) =? 1)
      with true by (symmetry; apply Z.eqb_eq; simpl in Hc; lia).
    unfold gk_fexists. cbn [nth_error]. rewrite !bind_ret_l.
    cbn [bind]. rewrite E0, E1, E2. reflexivity.
Qed.

(** ** What a handler that returns has done *)

Lemma switch_returned c oa p log p' :
  switch c oa p = (log, Returned p') -> handled p c oa p'.
Proof.
  unfold switch, optarg_string.
  destruct c as [[] | | z]; destruct oa as [v |];
    rewrite ?bind_ret_l, ?print_table_exit;
    unfold undefined_read, errexit, ret; simpl; try discriminate.
  - destruct (gk_GetStringID ifmt_options v) as [id |] eqn:Hid;
      [| discriminate].
    destruct id; simpl; intros H; injection H as _ <-;
      solve [ now apply handled_csrnv
            | now apply handled_ifmt ].
  - intros H; injection H as _ <-. constructor.
  - intros H; injection H as _ <-. constructor.
  - intros H; injection H as _ <-. constructor.
  - destruct (Z.ltb_spec (Libc.atoi v) 0); [discriminate |].
    intros H'; injection H' as _ <-. now constructor.
  - destruct (Z.ltb_spec (Libc.atoi v) 0); [discriminate |].
    intros H'; injection H' as _ <-. now constructor.
Qed.

Lemma option_loop_returned rs : forall p log p',
  option_loop rs p = (log, Returned p') -> looped rs p p'.
Proof.
  induction rs as [| [c oa] rest IH]; cbn [option_loop]; intros p log p' H.
  - injection H as _ <-. constructor.
  - apply bind_inv_returned in H as (l1 & p1 & l2 & H1 & H2 & _).
    econstructor; eauto using switch_returned.
Qed.

Lemma looped_app_inv rs1 : forall rs2 p p',
  looped (rs1 ++ rs2) p p' ->
  exists p1, looped rs1 p p1 /\ looped rs2 p1 p'.
Proof.
  induction rs1 as [| [c oa] rest IH]; cbn [app]; intros rs2 p p' H.
  - exists p. split; [constructor | exact H].
  - inversion H as [| ? ? ? ? p0 ? Hh Hl]; subst.
    destruct (IH _ _ _ Hl) as (p1 & Ha & Hb).
    exists p1. split; [econstructor; eauto | exact Hb].
Qed.

(** The loop never touches the three file fields. *)
Lemma handled_files p c oa p' :
  handled p c oa p' ->
  tstfile p' = tstfile p /\ mdlfile p' = mdlfile p /\ trnfile p' = trnfile p.
Proof. destruct 1; repeat split. Qed.

Lemma looped_files rs p p' :
  looped rs p p' ->
  tstfile p' = tstfile p /\ mdlfile p' = mdlfile p /\ trnfile p' = trnfile p.
Proof.
  induction 1 as [| c oa rest p p1 p' Hh _ IH]; [repeat split |].
  destruct (handled_files _ _ _ _ Hh) as (? & ? & ?).
  destruct IH as (? & ? & ?). repeat split; congruence.
Qed.

(** [readvals] is only ever cleared, and the no-ratings code is never
    left in [ifmt]. *)
Lemma handled_readvals p c oa p' :
  handled p c oa p' -> readvals p = 0 -> readvals p' = 0.
Proof. destruct 1; simpl; auto. Qed.

Lemma handled_not_metis p c oa p' :
  handled p c oa p' ->
  ifmt p <> GK_CSR_FMT_METIS -> ifmt p' <> GK_CSR_FMT_METIS.
Proof. destruct 1; simpl; auto; discriminate. Qed.

Lemma handled_ifmt_kept p c oa p' :
  handled p c oa p' -> c <> RetVal CMD_IFMT -> ifmt p' = ifmt p.
Proof. destruct 1; simpl; congruence. Qed.

Lemma looped_readvals rs p p' :
  looped rs p p' -> readvals p = 0 -> readvals p' = 0.
Proof. induction 1; eauto using handled_readvals. Qed.

Lemma looped_not_metis rs p p' :
  looped rs p p' ->
  ifmt p <> GK_CSR_FMT_METIS -> ifmt p' <> GK_CSR_FMT_METIS.
Proof. induction 1; eauto using handled_not_metis. Qed.

Lemma looped_ifmt_kept rs p p' :
  looped rs p p' ->
  Forall (fun r => fst r <> RetVal CMD_IFMT) rs -> ifmt p' = ifmt p.
Proof.
  induction 1 as [| c oa rest p p1 p' Hh _ IH]; [reflexivity |].
  intros Hall. inversion Hall as [| ? ? Hc Hrest]; subst.
  rewrite (IH Hrest). eapply handled_ifmt_kept; eauto.
Qed.

(** Only a setting option is handled by returning. *)
Lemma handled_setting p c oa p' : handled p c oa p' -> setting_option c.
Proof. destruct 1; unfold setting_option; simpl; auto 6. Qed.

Lemma looped_no_setting rs p p' :
  looped rs p p' ->
  Forall (fun r => ~ setting_option (fst r)) rs -> p' = p.
Proof.
  destruct 1 as [| c oa rest p p1 p' Hh _]; [reflexivity |].
  intros Hall. inversion Hall as [| ? ? Hc _]; subst.
  destruct Hc. eapply handled_setting; eauto.
Qed.

(** The file arguments change the three file fields only, and [tstfile]
    only when [argc - gk_optind] is 3. *)
Lemma get_datafiles_returned argc argv optind p log p' :
  get_datafiles file_exists argc argv optind p = (log, Returned p') ->
  ifmt p' = ifmt p /\ readvals p' = readvals p /\
  binarize p' = binarize p /\ outfile p' = outfile p /\
  nrcmds p' = nrcmds p /\ dbglvl p' = dbglvl p /\
  (argc - Z.of_nat optind <> 3 -> tstfile p' = tstfile p).
Proof.
  unfold get_datafiles, argv_token, gk_fexists.
  destruct ((argc - Z.of_nat optind <? 1) || (argc - Z.of_nat optind >? 3));
    [rewrite print_table_exit; discriminate |].
  destruct (nth_error argv optind) as [mdl |]; [| discriminate].
  rewrite bind_ret_l. cbn [bind app].
  destruct (file_exists mdl); [| discriminate]. cbn [negb ret bind app].
  destruct (nth_error argv (S optind)) as [trn |]; [| discriminate].
  cbn [ret bind app].
  destruct (file_exists trn); [| discriminate]. cbn [negb ret bind app].
  destruct (Z.eqb_spec (argc - Z.of_nat (S (S optind))) 1) as [E | E].
  - destruct (nth_error argv (S (S optind))) as [tst |]; [| discriminate].
    cbn [ret bind app].
    destruct (file_exists tst); [| discriminate]. cbn [negb ret bind app].
    intros H; injection H as _ <-. simpl. repeat split. lia.
  - intros H; injection H as _ <-. simpl. repeat split.
Qed.

(** The files of a returned [params_t] were found to exist. *)
Lemma get_datafiles_files argc argv optind p log p' :
  get_datafiles file_exists argc argv optind p = (log, Returned p') ->
  tstfile p = None ->
  (exists mdl, mdlfile p' = Some mdl /\ file_exists mdl = true) /\
  (exists trn, trnfile p' = Some trn /\ file_exists trn = true) /\
  (forall tst, tstfile p' = Some tst -> file_exists tst = true).
Proof.
  unfold get_datafiles, argv_token, gk_fexists. intros H Hnone. revert H.
  destruct ((argc - Z.of_nat optind <? 1) || (argc - Z.of_nat optind >? 3));
    [rewrite print_table_exit; discriminate |].
  destruct (nth_error argv optind) as [mdl |]; [| discriminate].
  rewrite bind_ret_l. cbn [bind app].
  destruct (file_exists mdl) eqn:Emdl; [| discriminate].
  cbn [negb ret bind app].
  destruct (nth_error argv (S optind)) as [trn |]; [| discriminate].
  cbn [ret bind app].
  destruct (file_exists trn) eqn:Etrn; [| discriminate].
  cbn [negb ret bind app].
  destruct (argc - Z.of_nat (S (S optind)) =? 1).
  - destruct (nth_error argv (S (S optind))) as [tst |]; [| discriminate].
    cbn [ret bind app].
    destruct (file_exists tst) eqn:Etst; [| discriminate].
    cbn [negb ret bind app].
    intros H; injection H as _ <-. simpl. repeat split; eauto.
    intros tst' Heq. now injection Heq as <-.
  - intros H; injection H as _ <-. simpl. repeat split; eauto.
    intros tst' Heq. congruence.
Qed.

(** The first file argument that does not exist ends the run; those after
    it are neither read nor looked at. *)
Lemma get_datafiles_missing argv optind params ok bad later :
  skipn optind argv = (ok ++ bad :: later)%list ->
  (length (ok ++ bad :: later) <= 3)%nat ->
  Forall (fun t => file_exists t = true) ok ->
  file_exists bad = false ->
  get_datafiles file_exists (Z.of_nat (length argv)) argv optind params
  = (map Fexists (ok ++ [bad]), Errexit (missing_file (length ok) bad)).
Proof.
  intros Hskip Hlen Hok Hbad.
  destruct (positional_facts _ _ _ Hskip) as (Hc & H0 & H1 & H2);
    [now destruct ok |].
  assert (1 <= length (ok ++ bad :: later))%nat
    by (rewrite length_app; simpl; lia).
  unfold get_datafiles, argv_token, gk_fexists.
  rewrite (guard_false _ _ _ Hc) by lia.
  rewrite H0, H1, H2.
  destruct ok as [| o1 [| o2 [| o3 ok']]]; cbn [app nth_error length].
  - rewrite bind_ret_l. cbn [bind app]. now rewrite Hbad.
  - inversion Hok as [| ? ? E1 _]; subst.
    rewrite bind_ret_l. cbn [bind app]. rewrite E1. cbn [negb ret bind app].
    now rewrite Hbad.
  - inversion Hok as [| ? ? E1 Hok1]; subst.
    inversion Hok1 as [| ? ? E2 _]; subst.
    assert ((Z.of_nat (length argv) - Z.of_nat (S (S optind)) =? 1) = true)
      as -> by (apply Z.eqb_eq; simpl in Hlen, Hc |- *;
                rewrite ?length_app in *; simpl in *; lia).
    rewrite bind_ret_l. cbn [bind app]. rewrite E1. cbn [negb ret bind app].
    rewrite E2. cbn [negb ret bind app]. now rewrite Hbad.
  - simpl in Hlen. rewrite length_app in Hlen. simpl in Hlen. lia.
Qed.

(** ** The helpers *)

Lemma gk_GetStringID_cons name id rest key :
  gk_GetStringID ((name, id) :: rest) key
  = if String.eqb key name then Some id else gk_GetStringID rest key.
Proof. reflexivity. Qed.

Lemma gk_GetStringID_miss strmap key :
  ~ In key (map fst strmap) -> gk_GetStringID strmap key = None.
Proof.
  induction strmap as [| [name id] rest IH]; [reflexivity |].
  rewrite gk_GetStringID_cons. cbn [map fst In]. intros H.
  destruct (String.eqb_spec key name) as [-> | _].
  - destruct H. now left.
  - apply IH. intros Hin. apply H. now right.
Qed.

Lemma digits_value_no_digit acc s :
  starts_with_digit s = false -> Libc.digits_value acc s = acc.
Proof.
  destruct s as [| c r]; cbn [starts_with_digit Libc.digits_value];
    [reflexivity |].
  now destruct (Libc.digit_of c).
Qed.

Lemma atoi_no_integer_prefix v :
  has_integer_prefix v = false -> Libc.atoi v = 0.
Proof.
  unfold has_integer_prefix, Libc.atoi, Libc.strtol10.
  destruct (Libc.read_sign (Libc.skip_space v)) as [negative t].
  cbn [snd]. intros H. rewrite (digits_value_no_digit _ _ H).
  now destruct negative.
Qed.

End Facts.

(** ** The scanner *)

(** The scanner of [Getopt] reorders the argument vector at most: no token
    is lost or made up, so [argc] is also the length of the vector that
    [parse_cmdline] reads the file arguments from. *)
Lemma took_tokens r elems s rest :
  Permutation (tokens_of s) rest ->
  Permutation (tokens_of (Getopt.took r elems s)) (elems ++ rest).
Proof.
  destruct s as [[rs opts] nonopts]. unfold tokens_of.
  cbn [Getopt.took fst snd]. intros H.
  rewrite <- app_assoc. now apply Permutation_app_head.
Qed.

Lemma scan_tokens ord : forall n toks,
  (length toks <= n)%nat ->
  Permutation (tokens_of (Getopt.scan ord toks)) toks.
Proof.
  induction n as [| n IH]; intros [| tok tl] Hlen; simpl in Hlen;
    try lia; try reflexivity.
  cbn [Getopt.scan].
  destruct (String.eqb tok "--"); [reflexivity |].
  destruct (Getopt.is_option_element tok).
  - destruct (Getopt.split_eq (Getopt.option_text tok)) as [name attached].
    assert (Htl : Permutation (tokens_of (Getopt.scan ord tl)) tl)
      by (apply IH; lia).
    destruct (Getopt.find_long_option name) as [o |];
      [| exact (took_tokens _ [tok] _ tl Htl)].
    destruct attached as [v |].
    + destruct (has_arg o =? 0); exact (took_tokens _ [tok] _ tl Htl).
    + destruct (has_arg o =? 1); [| exact (took_tokens _ [tok] _ tl Htl)].
      destruct tl as [| v tl']; [reflexivity |].
      apply (took_tokens _ [tok; v] _ tl'). apply IH. simpl in Hlen. lia.
  - destruct ord; [reflexivity |].
    specialize (IH tl ltac:(lia)).
    destruct (Getopt.scan Getopt.PERMUTE tl) as [[rs opts] nonopts].
    unfold tokens_of in *. cbn [fst snd] in *.
    symmetry. apply Permutation_cons_app. now symmetry.
Qed.

Lemma gk_getopt_long_only_tokens ord argv :
  Permutation (end_argv (Getopt.gk_getopt_long_only ord argv)) argv.
Proof.
  destruct argv as [| prog toks]; [reflexivity |].
  unfold Getopt.gk_getopt_long_only.
  pose proof (scan_tokens ord (length toks) toks (le_n _)) as H.
  destruct (Getopt.scan ord toks) as [[rs opts] nonopts].
  cbn [end_argv]. now apply perm_skip.
Qed.

Lemma gk_getopt_long_only_argc ord argv :
  length (end_argv (Getopt.gk_getopt_long_only ord argv)) = length argv.
Proof. apply Permutation_length, gk_getopt_long_only_tokens. Qed.

(** [gk_optind] ends between 1 and [argc]. *)
Lemma gk_getopt_long_only_optind ord prog toks :
  (1 <= end_optind (Getopt.gk_getopt_long_only ord (prog :: toks))
     <= length (prog :: toks))%nat.
Proof.
  pose proof (gk_getopt_long_only_argc ord (prog :: toks)) as H.
  unfold Getopt.gk_getopt_long_only in *.
  destruct (Getopt.scan ord toks) as [[rs opts] nonopts].
  cbn [end_argv end_optind length] in *. rewrite length_app in H. lia.
Qed.

(** ** The result as a whole *)

(** Neither table has an empty line before its last element: both are
    printed whole. *)
Example helpstr_printed : printed helpstr = removelast helpstr.
Proof. reflexivity. Qed.

Example shorthelpstr_printed : printed shorthelpstr = removelast shorthelpstr.
Proof. reflexivity. Qed.

Lemma handled_ranges p c oa p' :
  handled p c oa p' ->
  0 <= nrcmds p -> 0 <= dbglvl p -> 0 <= readvals p <= 1 ->
  0 <= nrcmds p' /\ 0 <= dbglvl p' /\ 0 <= readvals p' <= 1.
Proof. destruct 1; simpl; intros; repeat split; lia. Qed.

Lemma looped_ranges rs p p' :
  looped rs p p' ->
  0 <= nrcmds p -> 0 <= dbglvl p -> 0 <= readvals p <= 1 ->
  0 <= nrcmds p' /\ 0 <= dbglvl p' /\ 0 <= readvals p' <= 1.
Proof.
  induction 1 as [| c oa rest p p1 p' Hh _ IH]; [auto |].
  intros Hn Hd Hr.
  destruct (handled_ranges _ _ _ _ Hh Hn Hd Hr) as (? & ? & ?). auto.
Qed.

(** What every returned [params_t] satisfies: the two counts are not
    negative, [readvals] is a flag, the format is not the no-ratings code,
    the model and old files are set, and every file that is set was found
    to exist. *)
Lemma parse_cmdline_invariants
      (gk_getopt_long_only : list string -> getopt_run)
      (file_exists : string -> bool) (argv : list string) log p :
  parse_cmdline gk_getopt_long_only file_exists argv = (log, Returned p) ->
  0 <= nrcmds p /\ 0 <= dbglvl p /\ 0 <= readvals p <= 1 /\
  ifmt p <> GK_CSR_FMT_METIS /\
  (exists mdl, mdlfile p = Some mdl /\ file_exists mdl = true) /\
  (exists trn, trnfile p = Some trn /\ file_exists trn = true) /\
  (forall tst, tstfile p = Some tst -> file_exists tst = true).
Proof.
  intros Hrun.
  apply parse_cmdline_returned in Hrun as (params & Hloop & Hfiles).
  apply option_loop_returned in Hloop.
  destruct (looped_files _ _ _ Hloop) as (Htst & _ & _).
  destruct (get_datafiles_files _ _ _ _ _ _ _ Hfiles Htst) as (Hm & Ht & Hx).
  destruct (get_datafiles_returned _ _ _ _ _ _ _ Hfiles)
    as (-> & -> & _ & _ & -> & -> & _).
  destruct (looped_ranges _ _ _ Hloop) as (? & ? & ?);
    cbn [nrcmds dbglvl readvals defaults]; try lia.
  repeat split; try lia; auto.
  eapply looped_not_metis; eauto. discriminate.
Qed.

(** The examples of the specification. *)
Example slim_predict_two_files :
  slim_predict Getopt.PERMUTE every_file argv_two
  = ([Fexists "model.bin"; Fexists "old.csr"],
     Returned (mk_params GK_CSR_FMT_CSR 1 0 None None 10 0
                 (Some "model.bin") (Some "old.csr"))).
Proof. reflexivity. Qed.

Example slim_predict_three_files :
  slim_predict Getopt.PERMUTE every_file argv_three
  = ([Fexists "model.bin"; Fexists "old.csr"; Fexists "test.csr"],
     Returned (mk_params GK_CSR_FMT_IJV 1 0 (Some "out.txt")
                 (Some "test.csr") 5 0
                 (Some "model.bin") (Some "old.csr"))).
Proof. reflexivity. Qed.

Example slim_predict_bogus_format :
  slim_predict Getopt.PERMUTE every_file argv_bogus
  = ([], Errexit ("Invalid -ifmt of bogus." ++ nl)).
Proof. reflexivity. Qed.

(** A run of [parse_cmdline] known to return: the result of its loop and
    the equation of its file arguments. *)
Ltac returned_run Hret params Hloop Hfiles :=
  match type of Hret with
  | snd ?run = Returned _ =>
      let log := fresh "log" in
      let r := fresh "r" in
      let Hrun := fresh "Hrun" in
      destruct run as [log r] eqn:Hrun;
      cbn [snd] in Hret; subst r;
      apply parse_cmdline_returned in Hrun as (params & Hloop & Hfiles);
      apply option_loop_returned in Hloop
  end.

(** * The claims *)

(** ** Number of file arguments *)

(** Fewer than one or more than three tokens left by the scanner: the short
    usage text is printed, the process ends with status 0, and no file is
    looked at. *)
Lemma usage_outside_one_to_three
      (gk_getopt_long_only : list string -> getopt_run)
      (file_exists : string -> bool) (argv : list string) (params : params_t) :
  snd (option_loop (results (gk_getopt_long_only argv)) defaults)
  = Returned params ->
  file_count argv (gk_getopt_long_only argv) < 1 \/
  3 < file_count argv (gk_getopt_long_only argv) ->
  parse_cmdline gk_getopt_long_only file_exists argv
  = (map (fun line => Printf (line ++ nl)) (printed shorthelpstr), Exit 0).
Proof.
  intros Hloop Hcount. rewrite (parse_cmdline_done _ _ _ _ Hloop).
  now apply get_datafiles_usage.
Qed.

(** Exactly one token left by the scanner: the guard lets the run through,
    the token is looked up as the model file, and the old file is read at
    index [argc]. *)
Lemma one_file_argument
      (gk_getopt_long_only : list string -> getopt_run)
      (file_exists : string -> bool) (argv : list string) (params : params_t)
      (tok : string) :
  snd (option_loop (results (gk_getopt_long_only argv)) defaults)
  = Returned params ->
  positional (gk_getopt_long_only argv) = [tok] ->
  length (end_argv (gk_getopt_long_only argv)) = length argv ->
  parse_cmdline gk_getopt_long_only file_exists argv
  = if file_exists tok
    then ([Fexists tok], Undefined (PastArgv (length argv)))
    else ([Fexists tok], Errexit (missing_file 0 tok)).
Proof.
  intros Hloop Hpos Hlen.
  rewrite (parse_cmdline_done _ _ _ _ Hloop), <- Hlen.
  now apply get_datafiles_one.
Qed.

(** C1.  The claim has every count of file arguments other than 2 and 3
    answered with the short usage text and status 0.  On
    [slim_predict model.bin] the code does otherwise: one token is left, the
    guard lets it through, [model.bin] is looked up, and the run goes on to
    read the old file at [argv[2]], where there is no token; nothing of the
    usage text is printed and the process does not end with [exit(0)]. *)
Theorem C1_one_file_argument_is_let_through
        (ord : Getopt.ordering) (file_exists : string -> bool) :
  file_count argv_one (Getopt.gk_getopt_long_only ord argv_one) = 1 /\
  slim_predict ord file_exists argv_one
  = (if file_exists "model.bin"
     then ([Fexists "model.bin"], Undefined (PastArgv 2))
     else ([Fexists "model.bin"], Errexit (missing_file 0 "model.bin"))) /\
  snd (slim_predict ord file_exists argv_one) <> Exit 0.
Proof.
  assert (Hrun : slim_predict ord file_exists argv_one
                 = if file_exists "model.bin"
                   then ([Fexists "model.bin"], Undefined (PastArgv 2))
                   else ([Fexists "model.bin"],
                         Errexit (missing_file 0 "model.bin"))).
  { unfold slim_predict.
    destruct ord;
      apply (one_file_argument _ file_exists argv_one defaults "model.bin");
      reflexivity. }
  split; [destruct ord; reflexivity |]. split; [exact Hrun |].
  rewrite Hrun. destruct (file_exists "model.bin"); discriminate.
Qed.

(** C2.  There is an argument vector, [slim_predict model.bin], on which
    the option loop leaves exactly one token; the guard, which turns away
    counts below 1 and above 3 only, lets it through; the token is taken as
    the model file; and, once that file is found to exist, the old file is
    read at index [argc], past the last token, where the argument vector
    holds none. *)
Theorem C2_one_token_reads_past_the_last :
  exists (argv : list string) (tok : string),
    let scan := Getopt.gk_getopt_long_only Getopt.PERMUTE argv in
    let argc := Z.of_nat (length argv) in
    snd (option_loop (results scan) defaults) = Returned defaults /\
    positional scan = [tok] /\
    length (end_argv scan) = length argv /\
    (argc - Z.of_nat (end_optind scan) <? 1)
      || (argc - Z.of_nat (end_optind scan) >? 3) = false /\
    nth_error (end_argv scan) (end_optind scan) = Some tok /\
    S (end_optind scan) = length argv /\
    nth_error (end_argv scan) (S (end_optind scan)) = None /\
    forall file_exists,
      slim_predict Getopt.PERMUTE file_exists argv
      = if file_exists tok
        then ([Fexists tok], Undefined (PastArgv (length argv)))
        else ([Fexists tok], Errexit (missing_file 0 tok)).
Proof.
  exists argv_one, "model.bin". cbv zeta.
  repeat (split; [reflexivity |]).
  intros file_exists. unfold slim_predict.
  now rewrite (one_file_argument _ file_exists argv_one defaults "model.bin")
    by reflexivity.
Qed.

(** ** File arguments in order *)

(** C3.  When the option loop ends with two or three tokens left and each
    names an existing file, [parse_cmdline] returns; the first token is
    [mdlfile], the second [trnfile], the third, if there is one, [tstfile],
    and with two tokens [tstfile] stays null.  The files are looked up in
    that order, and the fields set by the options are those the loop left. *)
Theorem C3_file_arguments_in_order
        (gk_getopt_long_only : list string -> getopt_run)
        (file_exists : string -> bool)
        (argv : list string) (params : params_t) (toks : list string) :
  snd (option_loop (results (gk_getopt_long_only argv)) defaults)
  = Returned params ->
  positional (gk_getopt_long_only argv) = toks ->
  length (end_argv (gk_getopt_long_only argv)) = length argv ->
  (length toks = 2 \/ length toks = 3)%nat ->
  Forall (fun tok => file_exists tok = true) toks ->
  parse_cmdline gk_getopt_long_only file_exists argv
  = (map Fexists toks,
     Returned (mk_params (ifmt params) (readvals params) (binarize params)
                 (outfile params) (nth_error toks 2)
                 (nrcmds params) (dbglvl params)
                 (nth_error toks 0) (nth_error toks 1))).
Proof.
  intros Hloop Hpos Hlen Hcount Hall.
  rewrite (parse_cmdline_done _ _ _ _ Hloop), <- Hlen.
  rewrite (get_datafiles_found _ _ _ _ _ Hpos Hcount Hall).
  pose proof (option_loop_returned _ _ _ _ (option_loop_snd _ _ _ Hloop))
    as Hl.
  destruct (looped_files _ _ _ Hl) as (Htst & _ & _).
  rewrite Htst. cbn [tstfile defaults].
  now destruct (nth_error toks 2).
Qed.

Lemma C3_witness :
  (snd (option_loop
          (results (Getopt.gk_getopt_long_only Getopt.PERMUTE argv_three))
          defaults)
   = Returned (mk_params GK_CSR_FMT_IJV 1 0 (Some "out.txt") None 5 0
                 None None) /\
   positional (Getopt.gk_getopt_long_only Getopt.PERMUTE argv_three)
   = ["model.bin"; "old.csr"; "test.csr"] /\
   length (end_argv (Getopt.gk_getopt_long_only Getopt.PERMUTE argv_three))
   = length argv_three /\
   (length ["model.bin"; "old.csr"; "test.csr"] = 2 \/
    length ["model.bin"; "old.csr"; "test.csr"] = 3)%nat /\
   Forall (fun tok => every_file tok = true)
     ["model.bin"; "old.csr"; "test.csr"]) /\
  parse_cmdline (Getopt.gk_getopt_long_only Getopt.PERMUTE) every_file
    argv_three
  = ([Fexists "model.bin"; Fexists "old.csr"; Fexists "test.csr"],
     Returned (mk_params GK_CSR_FMT_IJV 1 0 (Some "out.txt")
                 (Some "test.csr") 5 0
                 (Some "model.bin") (Some "old.csr"))).
Proof.
  assert (Hall : Forall (fun tok => every_file tok = true)
                   ["model.bin"; "old.csr"; "test.csr"])
    by (repeat constructor).
  split.
  - repeat split; try reflexivity; [now right | exact Hall].
  - exact (C3_file_arguments_in_order
             (Getopt.gk_getopt_long_only Getopt.PERMUTE) every_file
             argv_three _ _ eq_refl eq_refl eq_refl (or_intror eq_refl) Hall).
Defined.

(** ** The input format *)

(** The claim of C4 as it is worded fails when a later [-ifmt] follows
    [-ifmt=csrnv]: on [slim_predict -ifmt=csrnv -ifmt=ijv model.bin old.csr]
    the scanner hands over [-ifmt] with value [csrnv], the run returns, and
    [ifmt] is the IJV code, not the CSR one. *)
Lemma C4_counterexample :
  In (RetVal CMD_IFMT, Some "csrnv")
     (results (Getopt.gk_getopt_long_only Getopt.PERMUTE argv_csrnv_ijv)) /\
  exists p : params_t,
    slim_predict Getopt.PERMUTE every_file argv_csrnv_ijv
    = ([Fexists "model.bin"; Fexists "old.csr"], Returned p) /\
    ifmt p = GK_CSR_FMT_IJV /\
    ifmt p <> GK_CSR_FMT_CSR.
Proof.
  split; [left; reflexivity |].
  exists (mk_params GK_CSR_FMT_IJV 0 0 None None 10 0
            (Some "model.bin") (Some "old.csr")).
  split; [reflexivity |]. split; [reflexivity | discriminate].
Qed.

(** C4, amended.  In every run that returns and in which [-ifmt] was given
    the value [csrnv], [readvals] is 0 and [ifmt] is not the no-ratings
    code; [ifmt] is the CSR code when no [-ifmt] follows that one. *)
Theorem C4_csrnv_clears_readvals
        (gk_getopt_long_only : list string -> getopt_run)
        (file_exists : string -> bool) (argv : list string)
        (before after : list (getopt_ret * option string)) (p : params_t) :
  results (gk_getopt_long_only argv)
  = (before ++ (RetVal CMD_IFMT, Some "csrnv") :: after)%list ->
  snd (parse_cmdline gk_getopt_long_only file_exists argv) = Returned p ->
  readvals p = 0 /\
  ifmt p <> GK_CSR_FMT_METIS /\
  (Forall (fun r => fst r <> RetVal CMD_IFMT) after ->
   ifmt p = GK_CSR_FMT_CSR).
Proof.
  intros Hres Hret. returned_run Hret params Hloop Hfiles.
  rewrite Hres in Hloop.
  apply looped_app_inv in Hloop as (p0 & _ & Hloop).
  inversion Hloop as [| ? ? ? ? p1 ? Hh Hafter]; subst.
  assert (H1 : readvals p1 = 0 /\ ifmt p1 = GK_CSR_FMT_CSR).
  { inversion Hh as [v id Hid Hne | v Hid | | | |]; subst.
    - vm_compute in Hid. injection Hid as <-. now destruct Hne.
    - split; reflexivity. }
  destruct H1 as (Hrv & Hfmt).
  destruct (get_datafiles_returned _ _ _ _ _ _ _ Hfiles)
    as (-> & -> & _).
  split; [eauto using looped_readvals |].
  split.
  - eapply looped_not_metis; eauto. rewrite Hfmt. discriminate.
  - intros Hnone. now rewrite (looped_ifmt_kept _ _ _ Hafter Hnone).
Qed.

Lemma C4_witness :
  (results (Getopt.gk_getopt_long_only Getopt.PERMUTE argv_csrnv)
   = ([] ++ (RetVal CMD_IFMT, Some "csrnv") :: [])%list /\
   snd (parse_cmdline (Getopt.gk_getopt_long_only Getopt.PERMUTE) every_file
          argv_csrnv)
   = Returned (mk_params GK_CSR_FMT_CSR 0 0 None None 10 0
                 (Some "model.bin") (Some "old.csr"))) /\
  readvals (mk_params GK_CSR_FMT_CSR 0 0 None None 10 0
              (Some "model.bin") (Some "old.csr")) = 0 /\
  ifmt (mk_params GK_CSR_FMT_CSR 0 0 None None 10 0
          (Some "model.bin") (Some "old.csr")) <> GK_CSR_FMT_METIS /\
  (Forall (fun r : getopt_ret * option string => fst r <> RetVal CMD_IFMT) [] ->
   ifmt (mk_params GK_CSR_FMT_CSR 0 0 None None 10 0
           (Some "model.bin") (Some "old.csr")) = GK_CSR_FMT_CSR).
Proof.
  split.
  - split; reflexivity.
  - exact (C4_csrnv_clears_readvals
             (Getopt.gk_getopt_long_only Getopt.PERMUTE) every_file
             argv_csrnv [] [] _ eq_refl eq_refl).
Defined.

(** C6.  When the scanner hands over [-ifmt] with a value that is none of
    [csr], [csrnv], [cluto], [ijv], the options before it having been
    handled, the run ends in [errexit] with [Invalid -ifmt of <value>.],
    and nothing has been printed or looked up. *)
Theorem C6_unknown_ifmt_is_fatal
        (gk_getopt_long_only : list string -> getopt_run)
        (file_exists : string -> bool) (argv : list string)
        (before after : list (getopt_ret * option string))
        (params : params_t) (v : string) :
  results (gk_getopt_long_only argv)
  = (before ++ (RetVal CMD_IFMT, Some v) :: after)%list ->
  snd (option_loop before defaults) = Returned params ->
  ~ In v ["csr"; "csrnv"; "cluto"; "ijv"] ->
  parse_cmdline gk_getopt_long_only file_exists argv
  = ([], Errexit ("Invalid -ifmt of " ++ v ++ "." ++ nl)).
Proof.
  intros Hres Hbefore Hout.
  rewrite (parse_cmdline_at _ _ _ _ _ _ _ _ Hres Hbefore).
  unfold switch, optarg_string. rewrite bind_ret_l.
  now rewrite (gk_GetStringID_miss ifmt_options v Hout).
Qed.

Lemma C6_witness :
  (results (Getopt.gk_getopt_long_only Getopt.PERMUTE argv_bogus)
   = ([] ++ (RetVal CMD_IFMT, Some "bogus") :: [])%list /\
   snd (option_loop [] defaults) = Returned defaults /\
   ~ In "bogus" ["csr"; "csrnv"; "cluto"; "ijv"]) /\
  parse_cmdline (Getopt.gk_getopt_long_only Getopt.PERMUTE) every_file
    argv_bogus
  = ([], Errexit ("Invalid -ifmt of bogus." ++ nl)).
Proof.
  assert (Hout : ~ In "bogus" ["csr"; "csrnv"; "cluto"; "ijv"]).
  { intros [H | [H | [H | [H | []]]]]; discriminate H. }
  split.
  - repeat split; try reflexivity. exact Hout.
  - exact (C6_unknown_ifmt_is_fatal
             (Getopt.gk_getopt_long_only Getopt.PERMUTE) every_file
             argv_bogus [] [] defaults "bogus" eq_refl eq_refl Hout).
Defined.

(** ** Missing files *)

(** C5.  When the option loop ends with one to three tokens left and one of
    them names a file that does not exist, those before it existing, the
    run ends in [errexit] with the diagnostic of that position naming that
    path; the files looked up are the tokens up to that one, in order, and
    none of the later ones. *)
Theorem C5_first_missing_file_is_fatal
        (gk_getopt_long_only : list string -> getopt_run)
        (file_exists : string -> bool) (argv : list string)
        (params : params_t) (ok : list string) (bad : string)
        (later : list string) :
  snd (option_loop (results (gk_getopt_long_only argv)) defaults)
  = Returned params ->
  positional (gk_getopt_long_only argv) = (ok ++ bad :: later)%list ->
  length (end_argv (gk_getopt_long_only argv)) = length argv ->
  (length (ok ++ bad :: later) <= 3)%nat ->
  Forall (fun tok => file_exists tok = true) ok ->
  file_exists bad = false ->
  parse_cmdline gk_getopt_long_only file_exists argv
  = (map Fexists (ok ++ [bad]), Errexit (missing_file (length ok) bad)) /\
  forall tok, In tok later -> ~ In tok (ok ++ [bad]) ->
    ~ In (Fexists tok)
         (fst (parse_cmdline gk_getopt_long_only file_exists argv)).
Proof.
  intros Hloop Hpos Hlen Hcount Hok Hbad.
  assert (Hrun : parse_cmdline gk_getopt_long_only file_exists argv
                 = (map Fexists (ok ++ [bad]),
                    Errexit (missing_file (length ok) bad))).
  { rewrite (parse_cmdline_done _ _ _ _ Hloop), <- Hlen.
    now apply get_datafiles_missing with (later := later). }
  split; [exact Hrun |].
  intros tok _ Hnot Hin. rewrite Hrun in Hin. cbn [fst] in Hin.
  apply in_map_iff in Hin as (tok' & Heq & Hin).
  injection Heq as ->. now apply Hnot.
Qed.

Lemma C5_witness :
  (snd (option_loop
          (results (Getopt.gk_getopt_long_only Getopt.PERMUTE argv_three))
          defaults)
   = Returned (mk_params GK_CSR_FMT_IJV 1 0 (Some "out.txt") None 5 0
                 None None) /\
   positional (Getopt.gk_getopt_long_only Getopt.PERMUTE argv_three)
   = (["model.bin"] ++ "old.csr" :: ["test.csr"])%list /\
   length (end_argv (Getopt.gk_getopt_long_only Getopt.PERMUTE argv_three))
   = length argv_three /\
   (length (["model.bin"] ++ "old.csr" :: ["test.csr"]) <= 3)%nat /\
   Forall (fun tok => only_files ["model.bin"] tok = true) ["model.bin"] /\
   only_files ["model.bin"] "old.csr" = false) /\
  parse_cmdline (Getopt.gk_getopt_long_only Getopt.PERMUTE)
    (only_files ["model.bin"]) argv_three
  = ([Fexists "model.bin"; Fexists "old.csr"],
     Errexit ("Input old file old.csr does not exist." ++ nl)) /\
  forall tok, In tok ["test.csr"] ->
    ~ In tok (["model.bin"] ++ ["old.csr"]) ->
    ~ In (Fexists tok)
         (fst (parse_cmdline (Getopt.gk_getopt_long_only Getopt.PERMUTE)
                 (only_files ["model.bin"]) argv_three)).
Proof.
  assert (Hok : Forall (fun tok => only_files ["model.bin"] tok = true)
                  ["model.bin"]) by (repeat constructor).
  assert (Hcount : (length (["model.bin"] ++ "old.csr" :: ["test.csr"]) <= 3)%nat)
    by (apply Nat.leb_le; reflexivity).
  split.
  - repeat split; try reflexivity; assumption.
  - exact (C5_first_missing_file_is_fatal
             (Getopt.gk_getopt_long_only Getopt.PERMUTE)
             (only_files ["model.bin"]) argv_three _
             ["model.bin"] "old.csr" ["test.csr"]
             eq_refl eq_refl eq_refl Hcount Hok eq_refl).
Defined.

(** ** Numeric options *)

(** C7.  When the scanner hands over [-nrcmds] or [-dbglvl] with a value
    that [atoi] converts to a negative number, the options before it
    having been handled, the run ends in [errexit] with the diagnostic of
    that option, and nothing has been printed or looked up. *)
Theorem C7_negative_number_is_fatal
        (gk_getopt_long_only : list string -> getopt_run)
        (file_exists : string -> bool) (argv : list string)
        (before after : list (getopt_ret * option string))
        (params : params_t) (c : cmd_code) (v : string) :
  results (gk_getopt_long_only argv)
  = (before ++ (RetVal c, Some v) :: after)%list ->
  snd (option_loop before defaults) = Returned params ->
  c = CMD_NRCMDS \/ c = CMD_DBGLVL ->
  Libc.atoi v < 0 ->
  parse_cmdline gk_getopt_long_only file_exists argv
  = ([], Errexit (match c with
                  | CMD_NRCMDS =>
                      "The -nrcmds parameter should be non-negative." ++ nl
                  | _ =>
                      "The -dbglvl parameter should be non-negative." ++ nl
                  end)).
Proof.
  intros Hres Hbefore Hc Hneg.
  rewrite (parse_cmdline_at _ _ _ _ _ _ _ _ Hres Hbefore).
  apply Z.ltb_lt in Hneg.
  destruct Hc as [-> | ->]; unfold switch, optarg_string;
    rewrite bind_ret_l; cbn [nrcmds set_nrcmds dbglvl set_dbglvl];
    now rewrite Hneg.
Qed.

Lemma C7_witness :
  (results (Getopt.gk_getopt_long_only Getopt.PERMUTE argv_negative)
   = ([(RetVal CMD_BINARIZE, None)]
        ++ (RetVal CMD_NRCMDS, Some "-1") :: [])%list /\
   snd (option_loop [(RetVal CMD_BINARIZE, None)] defaults)
   = Returned (set_binarize 1 defaults) /\
   (CMD_NRCMDS = CMD_NRCMDS \/ CMD_NRCMDS = CMD_DBGLVL) /\
   Libc.atoi "-1" < 0) /\
  parse_cmdline (Getopt.gk_getopt_long_only Getopt.PERMUTE) every_file
    argv_negative
  = ([], Errexit ("The -nrcmds parameter should be non-negative." ++ nl)).
Proof.
  split.
  - repeat split; try reflexivity. now left.
  - exact (C7_negative_number_is_fatal
             (Getopt.gk_getopt_long_only Getopt.PERMUTE) every_file
             argv_negative [(RetVal CMD_BINARIZE, None)] []
             (set_binarize 1 defaults) CMD_NRCMDS "-1"
             eq_refl eq_refl (or_introl eq_refl) eq_refl).
Defined.

(** ** Help and unrecognised options *)

(** C8.  When the scanner reports an unrecognised option (['?']) or hands
    over [-help], the options before it having been handled, the run is
    the same in the two cases and whatever those options set: each line of
    [helpstr] up to the empty one is printed, the process ends with status
    0, and no file argument is read or looked up. *)
Theorem C8_help_and_unrecognised_alike
        (gk_getopt_long_only : list string -> getopt_run)
        (file_exists : string -> bool) (argv : list string)
        (before after : list (getopt_ret * option string))
        (params : params_t) (c : getopt_ret) (oa : option string) :
  results (gk_getopt_long_only argv) = (before ++ (c, oa) :: after)%list ->
  snd (option_loop before defaults) = Returned params ->
  c = RetQuestion \/ c = RetVal CMD_HELP ->
  parse_cmdline gk_getopt_long_only file_exists argv
  = (map (fun line => Printf (line ++ nl)) (printed helpstr), Exit 0) /\
  forall path,
    ~ In (Fexists path)
         (fst (parse_cmdline gk_getopt_long_only file_exists argv)).
Proof.
  intros Hres Hbefore Hc.
  assert (Hrun : parse_cmdline gk_getopt_long_only file_exists argv
                 = (map (fun line => Printf (line ++ nl)) (printed helpstr),
                    Exit 0)).
  { rewrite (parse_cmdline_at _ _ _ _ _ _ _ _ Hres Hbefore).
    destruct Hc as [-> | ->]; cbn [switch];
      now rewrite print_table_exit. }
  split; [exact Hrun |].
  intros path Hin. rewrite Hrun in Hin. cbn [fst] in Hin.
  apply in_map_iff in Hin as (line & Heq & _). discriminate Heq.
Qed.

Lemma C8_witness :
  (results (Getopt.gk_getopt_long_only Getopt.PERMUTE argv_help)
   = ([(RetVal CMD_BINARIZE, None)] ++ (RetVal CMD_HELP, None) :: [])%list /\
   snd (option_loop [(RetVal CMD_BINARIZE, None)] defaults)
   = Returned (set_binarize 1 defaults) /\
   (RetVal CMD_HELP = RetQuestion \/ RetVal CMD_HELP = RetVal CMD_HELP)) /\
  parse_cmdline (Getopt.gk_getopt_long_only Getopt.PERMUTE) every_file
    argv_help
  = (map (fun line => Printf (line ++ nl)) (printed helpstr), Exit 0) /\
  forall path,
    ~ In (Fexists path)
         (fst (parse_cmdline (Getopt.gk_getopt_long_only Getopt.PERMUTE)
                 every_file argv_help)).
Proof.
  split.
  - repeat split; try reflexivity. now right.
  - exact (C8_help_and_unrecognised_alike
             (Getopt.gk_getopt_long_only Getopt.PERMUTE) every_file
             argv_help [(RetVal CMD_BINARIZE, None)] []
             (set_binarize 1 defaults) (RetVal CMD_HELP) None
             eq_refl eq_refl (or_intror eq_refl)).
Defined.

(** ** Defaults *)

(** C9.  In every run that returns and in which the scanner handed over
    none of [-ifmt], [-binarize], [-outfile], [-nrcmds], [-dbglvl], the
    result has the CSR format, [readvals] 1, [binarize] 0, [nrcmds] 10,
    [dbglvl] 0 and a null [outfile]; [tstfile] is null when two file
    arguments were given. *)
Theorem C9_defaults_without_options
        (gk_getopt_long_only : list string -> getopt_run)
        (file_exists : string -> bool) (argv : list string) (p : params_t) :
  snd (parse_cmdline gk_getopt_long_only file_exists argv) = Returned p ->
  Forall (fun r => ~ setting_option (fst r))
         (results (gk_getopt_long_only argv)) ->
  ifmt p = GK_CSR_FMT_CSR /\ readvals p = 1 /\ binarize p = 0 /\
  nrcmds p = 10 /\ dbglvl p = 0 /\ outfile p = None /\
  (file_count argv (gk_getopt_long_only argv) = 2 -> tstfile p = None).
Proof.
  intros Hret Hnone. returned_run Hret params Hloop Hfiles.
  apply looped_no_setting in Hloop; [| exact Hnone]. subst params.
  destruct (get_datafiles_returned _ _ _ _ _ _ _ Hfiles)
    as (-> & -> & -> & -> & -> & -> & Htst).
  repeat split. unfold file_count. intros Htwo. rewrite Htst; [reflexivity |].
  lia.
Qed.

Lemma C9_witness :
  (snd (parse_cmdline (Getopt.gk_getopt_long_only Getopt.PERMUTE) every_file
          argv_two)
   = Returned (mk_params GK_CSR_FMT_CSR 1 0 None None 10 0
                 (Some "model.bin") (Some "old.csr")) /\
   Forall (fun r => ~ setting_option (fst r))
     (results (Getopt.gk_getopt_long_only Getopt.PERMUTE argv_two))) /\
  let p := mk_params GK_CSR_FMT_CSR 1 0 None None 10 0
             (Some "model.bin") (Some "old.csr") in
  ifmt p = GK_CSR_FMT_CSR /\ readvals p = 1 /\ binarize p = 0 /\
  nrcmds p = 10 /\ dbglvl p = 0 /\ outfile p = None /\
  (file_count argv_two (Getopt.gk_getopt_long_only Getopt.PERMUTE argv_two)
   = 2 -> tstfile p = None).
Proof.
  assert (Hnone : Forall (fun r => ~ setting_option (fst r))
                    (results (Getopt.gk_getopt_long_only Getopt.PERMUTE
                                argv_two))) by constructor.
  split.
  - split; [reflexivity | exact Hnone].
  - exact (C9_defaults_without_options
             (Getopt.gk_getopt_long_only Getopt.PERMUTE) every_file
             argv_two _ eq_refl Hnone).
Defined.

(** ** Tokens that are not numbers *)

(** The claim of C10 as it is worded fails on tokens that start with a
    number and go on with something else.  [12abc] is not a decimal
    integer, yet [atoi] gives 12 and [nrcmds] is 12, not 0; [-5x] is not
    one either, [atoi] gives -5, and the run ends in [errexit]. *)
Lemma C10_counterexample :
  (valid_integer "12abc" = false /\
   In (RetVal CMD_NRCMDS, Some "12abc")
      (results (Getopt.gk_getopt_long_only Getopt.PERMUTE argv_12abc)) /\
   Libc.atoi "12abc" = 12 /\
   exists p : params_t,
     slim_predict Getopt.PERMUTE every_file argv_12abc
     = ([Fexists "model.bin"; Fexists "old.csr"], Returned p) /\
     nrcmds p = 12 /\ nrcmds p <> 0) /\
  (valid_integer "-5x" = false /\
   In (RetVal CMD_DBGLVL, Some "-5x")
      (results (Getopt.gk_getopt_long_only Getopt.PERMUTE argv_minus5x)) /\
   Libc.atoi "-5x" = -5 /\
   slim_predict Getopt.PERMUTE every_file argv_minus5x
   = ([], Errexit ("The -dbglvl parameter should be non-negative." ++ nl))).
Proof.
  split.
  - split; [reflexivity |]. split; [left; reflexivity |].
    split; [reflexivity |].
    exists (mk_params GK_CSR_FMT_CSR 1 0 None None 12 0
              (Some "model.bin") (Some "old.csr")).
    split; [reflexivity |]. split; [reflexivity | discriminate].
  - split; [reflexivity |]. split; [left; reflexivity |].
    split; reflexivity.
Qed.

(** C10, amended.  A value of [-nrcmds] or [-dbglvl] in which, after white
    space and an optional sign, no decimal digit comes first (text that is
    not numeric, the empty token) is converted by [atoi] to 0; 0 is not
    negative, so the handler does not end the run, prints nothing, and
    leaves the field at 0. *)
Theorem C10_no_number_at_the_head_gives_zero
        (v : string) (params : params_t) :
  has_integer_prefix v = false ->
  Libc.atoi v = 0 /\
  switch (RetVal CMD_NRCMDS) (Some v) params
  = ([], Returned (set_nrcmds 0 params)) /\
  switch (RetVal CMD_DBGLVL) (Some v) params
  = ([], Returned (set_dbglvl 0 params)).
Proof.
  intros Hv. pose proof (atoi_no_integer_prefix v Hv) as Hzero.
  split; [exact Hzero |].
  unfold switch, optarg_string. rewrite !bind_ret_l.
  cbn [nrcmds set_nrcmds dbglvl set_dbglvl]. rewrite Hzero.
  split; reflexivity.
Qed.

Lemma C10_witness :
  has_integer_prefix "xyz" = false /\
  Libc.atoi "xyz" = 0 /\
  switch (RetVal CMD_NRCMDS) (Some "xyz") defaults
  = ([], Returned (set_nrcmds 0 defaults)) /\
  switch (RetVal CMD_DBGLVL) (Some "xyz") defaults
  = ([], Returned (set_dbglvl 0 defaults)).
Proof.
  split.
  - reflexivity.
  - exact (C10_no_number_at_the_head_gives_zero "xyz" defaults eq_refl).
Defined.

(** * Further properties of [parse_cmdline] *)

Section MoreFacts.

Variable file_exists : string -> bool.

(** ** Which occurrence of an option counts *)

Lemma looped_nrcmds rs p p' :
  looped rs p p' ->
  nrcmds p' = match last_value CMD_NRCMDS rs with
              | Some v => Libc.atoi v
              | None => nrcmds p
              end.
Proof.
  induction 1 as [| c oa rest p p1 p' Hh _ IH]; [reflexivity |].
  cbn [last_value]. rewrite IH.
  destruct (last_value CMD_NRCMDS rest); [reflexivity |].
  destruct Hh; reflexivity.
Qed.

Lemma looped_dbglvl rs p p' :
  looped rs p p' ->
  dbglvl p' = match last_value CMD_DBGLVL rs with
              | Some v => Libc.atoi v
              | None => dbglvl p
              end.
Proof.
  induction 1 as [| c oa rest p p1 p' Hh _ IH]; [reflexivity |].
  cbn [last_value]. rewrite IH.
  destruct (last_value CMD_DBGLVL rest); [reflexivity |].
  destruct Hh; reflexivity.
Qed.

Lemma looped_outfile rs p p' :
  looped rs p p' ->
  outfile p' = match last_value CMD_OUTFILE rs with
               | Some v => Some v
               | None => outfile p
               end.
Proof.
  induction 1 as [| c oa rest p p1 p' Hh _ IH]; [reflexivity |].
  cbn [last_value]. rewrite IH.
  destruct (last_value CMD_OUTFILE rest); [reflexivity |].
  destruct Hh; reflexivity.
Qed.

Lemma looped_binarize rs p p' :
  looped rs p p' ->
  binarize p'
  = if existsb (fun r => is_option CMD_BINARIZE (fst r)) rs
    then 1 else binarize p.
Proof.
  induction 1 as [| c oa rest p p1 p' Hh _ IH]; [reflexivity |].
  cbn [existsb fst]. rewrite IH.
  destruct (existsb (fun r => is_option CMD_BINARIZE (fst r)) rest);
    [now rewrite orb_true_r |].
  rewrite orb_false_r. destruct Hh; reflexivity.
Qed.

Lemma gk_GetStringID_metis v :
  gk_GetStringID ifmt_options v = Some GK_CSR_FMT_METIS <-> v = "csrnv".
Proof.
  unfold ifmt_options. rewrite !gk_GetStringID_cons.
  destruct (String.eqb_spec v "csr") as [-> | _];
    [split; discriminate |].
  destruct (String.eqb_spec v "csrnv") as [-> | Hne]; [tauto |].
  destruct (String.eqb_spec v "cluto") as [-> | _];
    [split; [discriminate | contradiction] |].
  destruct (String.eqb_spec v "ijv") as [-> | _];
    split; try discriminate; contradiction.
Qed.

Lemma looped_readvals_value rs p p' :
  looped rs p p' ->
  readvals p' = if existsb is_csrnv rs then 0 else readvals p.
Proof.
  induction 1 as [| c oa rest p p1 p' Hh _ IH]; [reflexivity |].
  cbn [existsb]. rewrite IH.
  destruct (existsb is_csrnv rest); [now rewrite orb_true_r |].
  rewrite orb_false_r.
  destruct Hh as [v id Hid Hne | v Hid | | | |]; try reflexivity.
  - cbn [is_csrnv]. destruct (String.eqb_spec v "csrnv") as [-> | _];
      [| reflexivity].
    vm_compute in Hid. injection Hid as <-. now destruct Hne.
  - cbn [is_csrnv]. apply gk_GetStringID_metis in Hid as ->. reflexivity.
Qed.

Lemma looped_ifmt rs p p' :
  looped rs p p' ->
  match last_value CMD_IFMT rs with
  | Some v => exists id, gk_GetStringID ifmt_options v = Some id /\
                         ifmt p' = stored_format id
  | None => ifmt p' = ifmt p
  end.
Proof.
  induction 1 as [| c oa rest p p1 p' Hh _ IH]; [reflexivity |].
  cbn [last_value].
  destruct (last_value CMD_IFMT rest); [exact IH |].
  destruct Hh as [v id Hid Hne | v Hid | | | |]; cbn [is_option];
    try (rewrite IH; reflexivity).
  - exists id. split; [exact Hid |]. rewrite IH. now destruct id.
  - exists GK_CSR_FMT_METIS. split; [exact Hid |]. now rewrite IH.
Qed.

(** ** When the loop gets through *)

Lemma switch_acceptable c oa p :
  (exists p', snd (switch c oa p) = Returned p') <-> acceptable (c, oa) = true.
Proof.
  unfold switch, optarg_string, acceptable.
  destruct c as [[] | | z]; destruct oa as [v |];
    rewrite ?bind_ret_l, ?print_table_exit;
    unfold undefined_read, errexit, ret; cbn [snd bind printf exit app];
    try (split; [intros [? H]; discriminate H | intros H; discriminate H]);
    try (split; [intros _; reflexivity | intros _; eexists; reflexivity]).
  - destruct (gk_GetStringID ifmt_options v) as [[] |];
      cbn [ifmt set_ifmt snd];
      try (split; [intros _; reflexivity | intros _; eexists; reflexivity]).
    split; [intros [? H]; discriminate H | intros H; discriminate H].
  - cbn [nrcmds set_nrcmds].
    destruct (Z.ltb_spec (Libc.atoi v) 0) as [Hneg | Hpos]; cbn [snd].
    + split; [intros [? H]; discriminate H |].
      intros H. apply Z.leb_le in H. lia.
    + split; [intros _; now apply Z.leb_le | intros _; eexists; reflexivity].
  - cbn [dbglvl set_dbglvl].
    destruct (Z.ltb_spec (Libc.atoi v) 0) as [Hneg | Hpos]; cbn [snd].
    + split; [intros [? H]; discriminate H |].
      intros H. apply Z.leb_le in H. lia.
    + split; [intros _; now apply Z.leb_le | intros _; eexists; reflexivity].
Qed.

(** ** The file arguments of a run that returns *)

Lemma get_datafiles_returned_files argc argv optind p log p' :
  get_datafiles file_exists argc argv optind p = (log, Returned p') ->
  tstfile p = None ->
  1 <= argc - Z.of_nat optind <= 3 /\
  mdlfile p' = nth_error argv optind /\
  trnfile p' = nth_error argv (S optind) /\
  tstfile p' = (if argc - Z.of_nat optind =? 3
                then nth_error argv (S (S optind)) else None) /\
  log = map Fexists (files_of p').
Proof.
  unfold get_datafiles, argv_token, gk_fexists, files_of.
  intros H Hnone. revert H.
  destruct ((argc - Z.of_nat optind <? 1) || (argc - Z.of_nat optind >? 3))
    eqn:G; [rewrite print_table_exit; discriminate |].
  apply orb_false_iff in G as [G1 G2].
  apply Z.ltb_ge in G1. rewrite Z.gtb_ltb in G2. apply Z.ltb_ge in G2.
  destruct (nth_error argv optind) as [mdl |]; [| discriminate].
  rewrite bind_ret_l. cbn [bind app].
  destruct (file_exists mdl); [| discriminate]. cbn [negb ret bind app].
  destruct (nth_error argv (S optind)) as [trn |]; [| discriminate].
  cbn [ret bind app].
  destruct (file_exists trn); [| discriminate]. cbn [negb ret bind app].
  destruct (Z.eqb_spec (argc - Z.of_nat (S (S optind))) 1) as [E | E].
  - destruct (nth_error argv (S (S optind))) as [tst |]; [| discriminate].
    cbn [ret bind app].
    destruct (file_exists tst); [| discriminate]. cbn [negb ret bind app].
    intros H; injection H as <- <-.
    replace (argc - Z.of_nat optind =? 3) with true
      by (symmetry; apply Z.eqb_eq; lia).
    repeat split; try lia.
  - intros H; injection H as <- <-.
    replace (argc - Z.of_nat optind =? 3) with false
      by (symmetry; apply Z.eqb_neq; lia).
    cbn [tstfile set_trnfile set_mdlfile mdlfile trnfile].
    rewrite Hnone. repeat split; try lia.
Qed.

(** With one to three tokens left the run never ends in [exit] and prints
    nothing. *)
Lemma get_datafiles_no_exit argc argv optind p :
  1 <= argc - Z.of_nat optind <= 3 ->
  (forall code,
     snd (get_datafiles file_exists argc argv optind p) <> Exit code) /\
  (forall text,
     ~ In (Printf text) (fst (get_datafiles file_exists argc argv optind p))).
Proof.
  intros Hcount. unfold get_datafiles, argv_token, gk_fexists.
  replace ((argc - Z.of_nat optind <? 1) || (argc - Z.of_nat optind >? 3))
    with false by (symmetry; apply orb_false_iff; lia).
  destruct (nth_error argv optind) as [mdl |];
    [| split; [discriminate | intros text []]].
  rewrite bind_ret_l. cbn [bind app].
  destruct (file_exists mdl); cbn [negb ret errexit bind app];
    [| split; [discriminate | intros text [H | []]; discriminate H]].
  destruct (nth_error argv (S optind)) as [trn |];
    cbn [ret undefined_read bind app];
    [| split; [discriminate | intros text [H | []]; discriminate H]].
  destruct (file_exists trn); cbn [negb ret errexit bind app];
    [| split; [discriminate
              | intros text [H | [H | []]]; discriminate H]].
  destruct (argc - Z.of_nat (S (S optind)) =? 1);
    [| split; [discriminate
              | intros text [H | [H | []]]; discriminate H]].
  destruct (nth_error argv (S (S optind))) as [tst |];
    cbn [ret undefined_read bind app];
    [| split; [discriminate
              | intros text [H | [H | []]]; discriminate H]].
  destruct (file_exists tst); cbn [negb ret errexit bind app];
    split; try discriminate;
    intros text [H | [H | [H | []]]]; discriminate H.
Qed.

(** ** Standard output and [exit] *)

Lemma disciplined_exit0 {A : Type} (lines : list string) :
  @disciplined A (map (fun line => Printf line) lines, Exit 0).
Proof.
  split; cbn [fst snd]; [reflexivity |].
  intros code H. injection H as <-. split; [reflexivity |].
  intros path Hin. apply in_map_iff in Hin as (line & Heq & _).
  discriminate Heq.
Qed.

Lemma disciplined_quiet {A : Type} (log : list event) (st : status A) :
  (forall text, ~ In (Printf text) log) ->
  (forall code, st <> Exit code) ->
  disciplined (log, st).
Proof.
  intros Hlog Hst. split; cbn [fst snd].
  - intros text Hin. now destruct (Hlog text).
  - intros code H. now destruct (Hst code).
Qed.

Lemma switch_disciplined c oa p : disciplined (switch c oa p).
Proof.
  unfold switch, optarg_string.
  destruct c as [[] | | z]; destruct oa as [v |];
    rewrite ?bind_ret_l, ?print_table_exit, ?map_map;
    unfold undefined_read, errexit, ret;
    try (apply disciplined_quiet; [intros text [] | discriminate]);
    try (rewrite <- (map_map (fun line => line ++ nl) (fun t => Printf t));
         apply disciplined_exit0).
  - destruct (gk_GetStringID ifmt_options v) as [[] |]; cbn [ifmt set_ifmt];
      apply disciplined_quiet; solve [intros text [] | discriminate].
  - cbn [nrcmds set_nrcmds]. destruct (Libc.atoi v <? 0);
      apply disciplined_quiet; solve [intros text [] | discriminate].
  - cbn [dbglvl set_dbglvl]. destruct (Libc.atoi v <? 0);
      apply disciplined_quiet; solve [intros text [] | discriminate].
  - exact (disciplined_exit0
             ["Illegal command-line option(s) " ++ v ++ nl]).
Qed.

Lemma option_loop_disciplined rs : forall p, disciplined (option_loop rs p).
Proof.
  induction rs as [| [c oa] rest IH]; intros p; cbn [option_loop].
  - apply disciplined_quiet; [intros text [] | discriminate].
  - pose proof (switch_disciplined c oa p) as Hsw.
    destruct (switch c oa p) as [log [p1 | code | msg | u]] eqn:Heq;
      cbn [bind]; try exact Hsw.
    pose proof (switch_returned_log _ _ _ _ _ Heq) as ->.
    specialize (IH p1). now destruct (option_loop rest p1).
Qed.

Lemma get_datafiles_disciplined argc argv optind p :
  disciplined (get_datafiles file_exists argc argv optind p).
Proof.
  destruct (Z.lt_ge_cases (argc - Z.of_nat optind) 1) as [Hlow | Hlow];
    [| destruct (Z.lt_ge_cases 3 (argc - Z.of_nat optind)) as [Hhigh | Hhigh]].
  - rewrite get_datafiles_usage by lia.
    rewrite <- (map_map (fun line => line ++ nl) (fun t => Printf t)).
    apply disciplined_exit0.
  - rewrite get_datafiles_usage by lia.
    rewrite <- (map_map (fun line => line ++ nl) (fun t => Printf t)).
    apply disciplined_exit0.
  - destruct (get_datafiles_no_exit argc argv optind p) as (Hst & Hlog);
      [lia |].
    destruct (get_datafiles file_exists argc argv optind p) as [log st].
    now apply disciplined_quiet.
Qed.

(** ** The paths that are looked up *)

Lemma token_in_first_three (argv : list string) optind i tok :
  nth_error argv (optind + i) = Some tok -> (i < 3)%nat ->
  In tok (firstn 3 (skipn optind argv)).
Proof.
  intros Hnth Hi. apply nth_error_In with (n := i).
  rewrite nth_error_firstn.
  replace (i <? 3)%nat with true by (symmetry; now apply Nat.ltb_lt).
  now rewrite nth_error_skipn.
Qed.







(** Two file systems that agree on the first three tokens from
    [gk_optind] on give the same run. *)
Lemma get_datafiles_agree (other : string -> bool) argc argv optind p :
  (forall tok, In tok (firstn 3 (skipn optind argv)) ->
               file_exists tok = other tok) ->
  get_datafiles file_exists argc argv optind p
  = get_datafiles other argc argv optind p.
Proof.
  intros Hagree. unfold get_datafiles, argv_token, gk_fexists.
  destruct ((argc - Z.of_nat optind <? 1) || (argc - Z.of_nat optind >? 3));
    [reflexivity |].
  destruct (nth_error argv optind) as [mdl |] eqn:E0; [| reflexivity].
  rewrite !bind_ret_l. cbn [bind app].
  rewrite (Hagree mdl)
    by (apply (token_in_first_three argv optind 0);
        [now rewrite Nat.add_0_r | lia]).
  destruct (other mdl); [| reflexivity]. cbn [negb ret bind app].
  destruct (nth_error argv (S optind)) as [trn |] eqn:E1; [| reflexivity].
  cbn [ret bind app].
  rewrite (Hagree trn)
    by (apply (token_in_first_three argv optind 1);
        [now rewrite Nat.add_1_r | lia]).
  destruct (other trn); [| reflexivity]. cbn [negb ret bind app].
  destruct (argc - Z.of_nat (S (S optind)) =? 1); [| reflexivity].
  destruct (nth_error argv (S (S optind))) as [tst |] eqn:E2; [| reflexivity].
  cbn [ret bind app].
  rewrite (Hagree tst)
    by (apply (token_in_first_three argv optind 2);
        [now rewrite (Nat.add_comm optind 2) | lia]).
  reflexivity.
Qed.

(** ** Where a diagnostic comes from *)





End MoreFacts.

(** ** Usage *)

(** X1.  Once the option loop is through, the run prints the short usage
    text and ends with [exit(0)] exactly when fewer than one or more than
    three tokens are left; with one to three tokens left it never ends in
    [exit], with any status, and prints nothing. *)
Theorem X1_short_usage_exactly_outside_one_to_three
        (gk_getopt_long_only : list string -> getopt_run)
        (file_exists : string -> bool) (argv : list string)
        (params : params_t) :
  snd (option_loop (results (gk_getopt_long_only argv)) defaults)
  = Returned params ->
  ((file_count argv (gk_getopt_long_only argv) < 1 \/
    3 < file_count argv (gk_getopt_long_only argv))
   <->
   parse_cmdline gk_getopt_long_only file_exists argv
   = (map (fun line => Printf (line ++ nl)) (printed shorthelpstr), Exit 0))
  /\
  (1 <= file_count argv (gk_getopt_long_only argv) <= 3 ->
   (forall code,
      snd (parse_cmdline gk_getopt_long_only file_exists argv)
      <> Exit code) /\
   (forall text,
      ~ In (Printf text)
           (fst (parse_cmdline gk_getopt_long_only file_exists argv)))).
Proof.
  intros Hloop. rewrite (parse_cmdline_done _ _ _ _ Hloop).
  unfold file_count.
  pose proof (get_datafiles_no_exit file_exists (Z.of_nat (length argv))
                (end_argv (gk_getopt_long_only argv))
                (end_optind (gk_getopt_long_only argv)) params) as Hinside.
  split; [split |].
  - now apply get_datafiles_usage.
  - intros Hrun.
    destruct (Z.lt_ge_cases
                (Z.of_nat (length argv)
                 - Z.of_nat (end_optind (gk_getopt_long_only argv))) 1)
      as [Hlow | Hlow]; [now left |].
    destruct (Z.lt_ge_cases 3
                (Z.of_nat (length argv)
                 - Z.of_nat (end_optind (gk_getopt_long_only argv))))
      as [Hhigh | Hhigh]; [now right |].
    destruct Hinside as (Hst & _); [lia |].
    rewrite Hrun in Hst. now destruct (Hst 0).
  - exact Hinside.
Qed.

Lemma X1_witness :
  snd (option_loop
         (results (Getopt.gk_getopt_long_only Getopt.PERMUTE argv_two))
         defaults) = Returned defaults /\
  (((file_count argv_two
       (Getopt.gk_getopt_long_only Getopt.PERMUTE argv_two) < 1 \/
     3 < file_count argv_two
           (Getopt.gk_getopt_long_only Getopt.PERMUTE argv_two))
    <->
    parse_cmdline (Getopt.gk_getopt_long_only Getopt.PERMUTE) every_file
      argv_two
    = (map (fun line => Printf (line ++ nl)) (printed shorthelpstr), Exit 0))
   /\
   (1 <= file_count argv_two
           (Getopt.gk_getopt_long_only Getopt.PERMUTE argv_two) <= 3 ->
    (forall code,
       snd (parse_cmdline (Getopt.gk_getopt_long_only Getopt.PERMUTE)
              every_file argv_two) <> Exit code) /\
    (forall text,
       ~ In (Printf text)
            (fst (parse_cmdline (Getopt.gk_getopt_long_only Getopt.PERMUTE)
                    every_file argv_two))))).
Proof.
  split.
  - reflexivity.
  - exact (X1_short_usage_exactly_outside_one_to_three
             (Getopt.gk_getopt_long_only Getopt.PERMUTE) every_file
             argv_two defaults eq_refl).
Defined.

(** ** What a returned [params_t] holds *)

(** X2.  Every [params_t] that [parse_cmdline] returns has [nrcmds] and
    [dbglvl] not negative, [readvals] 0 or 1, a format other than the
    no-ratings code, [mdlfile] and [trnfile] set to paths that were found
    to exist, and [tstfile], if set, found to exist as well. *)
Theorem X2_returned_params_are_valid
        (gk_getopt_long_only : list string -> getopt_run)
        (file_exists : string -> bool) (argv : list string) (p : params_t) :
  snd (parse_cmdline gk_getopt_long_only file_exists argv) = Returned p ->
  0 <= nrcmds p /\ 0 <= dbglvl p /\ 0 <= readvals p <= 1 /\
  ifmt p <> GK_CSR_FMT_METIS /\
  (exists mdl, mdlfile p = Some mdl /\ file_exists mdl = true) /\
  (exists trn, trnfile p = Some trn /\ file_exists trn = true) /\
  (forall tst, tstfile p = Some tst -> file_exists tst = true).
Proof.
  intros Hret.
  destruct (parse_cmdline gk_getopt_long_only file_exists argv)
    as [log r] eqn:Hrun.
  cbn [snd] in Hret. subst r.
  exact (parse_cmdline_invariants _ _ _ _ _ Hrun).
Qed.

Lemma X2_witness :
  let p := mk_params GK_CSR_FMT_IJV 1 0 (Some "out.txt") (Some "test.csr")
             5 0 (Some "model.bin") (Some "old.csr") in
  snd (parse_cmdline (Getopt.gk_getopt_long_only Getopt.PERMUTE) every_file
         argv_three) = Returned p /\
  (0 <= nrcmds p /\ 0 <= dbglvl p /\ 0 <= readvals p <= 1 /\
   ifmt p <> GK_CSR_FMT_METIS /\
   (exists mdl, mdlfile p = Some mdl /\ every_file mdl = true) /\
   (exists trn, trnfile p = Some trn /\ every_file trn = true) /\
   (forall tst, tstfile p = Some tst -> every_file tst = true)).
Proof.
  split.
  - reflexivity.
  - exact (X2_returned_params_are_valid
             (Getopt.gk_getopt_long_only Getopt.PERMUTE) every_file
             argv_three _ eq_refl).
Defined.

(** X3.  From any draft, the option loop gets through to the file
    arguments exactly when every result of the scanner is acceptable:
    [-binarize]; [-outfile] with a value; [-ifmt] with a value found in
    [ifmt_options]; [-nrcmds] or [-dbglvl] with a value that [atoi] does
    not make negative.  [-help], ['?'], any other code, and a value-taking
    option without a value never let it through. *)
Theorem X3_loop_gets_through_iff_all_acceptable
        (rs : list (getopt_ret * option string)) (p : params_t) :
  (exists p', snd (option_loop rs p) = Returned p')
  <-> forallb acceptable rs = true.
Proof.
  revert p.
  induction rs as [| [c oa] rest IH]; intros p; cbn [option_loop forallb].
  - split; [reflexivity | intros _; now exists p].
  - rewrite andb_true_iff, <- (switch_acceptable c oa p).
    destruct (switch c oa p) as [log [p1 | code | msg | u]] eqn:Hsw;
      cbn [bind snd].
    + pose proof (switch_returned_log _ _ _ _ _ Hsw) as ->.
      destruct (option_loop rest p1) as [log' r] eqn:Hrest. cbn [snd app].
      specialize (IH p1). rewrite Hrest in IH. cbn [snd] in IH.
      rewrite <- IH. split; [intros H; split; eauto | tauto].
    + split; [intros [p' H]; discriminate H | intros [[p' H] _]; discriminate H].
    + split; [intros [p' H]; discriminate H | intros [[p' H] _]; discriminate H].
    + split; [intros [p' H]; discriminate H | intros [[p' H] _]; discriminate H].
Qed.

(** ** Repeated options *)

(** X4.  In a returned [params_t], [nrcmds] is [atoi] of the value of the
    last [-nrcmds] handed over, or 10 if there was none, and [dbglvl] is
    [atoi] of the value of the last [-dbglvl], or 0 if there was none. *)
Theorem X4_last_number_counts
        (gk_getopt_long_only : list string -> getopt_run)
        (file_exists : string -> bool) (argv : list string) (p : params_t) :
  snd (parse_cmdline gk_getopt_long_only file_exists argv) = Returned p ->
  nrcmds p = match last_value CMD_NRCMDS (results (gk_getopt_long_only argv))
             with
             | Some v => Libc.atoi v
             | None => 10
             end /\
  dbglvl p = match last_value CMD_DBGLVL (results (gk_getopt_long_only argv))
             with
             | Some v => Libc.atoi v
             | None => 0
             end.
Proof.
  intros Hret. returned_run Hret params Hloop Hfiles.
  destruct (get_datafiles_returned _ _ _ _ _ _ _ Hfiles)
    as (_ & _ & _ & _ & -> & -> & _).
  now rewrite (looped_nrcmds _ _ _ Hloop), (looped_dbglvl _ _ _ Hloop).
Qed.

Lemma X4_witness :
  let p := mk_params GK_CSR_FMT_CLUTO 0 1 (Some "b.txt") None 7 2
             (Some "model.bin") (Some "old.csr") in
  snd (parse_cmdline (Getopt.gk_getopt_long_only Getopt.PERMUTE) every_file
         argv_repeated) = Returned p /\
  (nrcmds p
   = match last_value CMD_NRCMDS
             (results (Getopt.gk_getopt_long_only Getopt.PERMUTE
                         argv_repeated))
     with
     | Some v => Libc.atoi v
     | None => 10
     end /\
   dbglvl p
   = match last_value CMD_DBGLVL
             (results (Getopt.gk_getopt_long_only Getopt.PERMUTE
                         argv_repeated))
     with
     | Some v => Libc.atoi v
     | None => 0
     end).
Proof.
  split.
  - reflexivity.
  - exact (X4_last_number_counts
             (Getopt.gk_getopt_long_only Getopt.PERMUTE) every_file
             argv_repeated _ eq_refl).
Defined.

(** X5.  In a returned [params_t], [outfile] is the value of the last
    [-outfile] handed over, as it was written, or null if there was none;
    [binarize] is 1 if [-binarize] was handed over at all and 0 if not. *)
Theorem X5_outfile_and_binarize
        (gk_getopt_long_only : list string -> getopt_run)
        (file_exists : string -> bool) (argv : list string) (p : params_t) :
  snd (parse_cmdline gk_getopt_long_only file_exists argv) = Returned p ->
  outfile p = last_value CMD_OUTFILE (results (gk_getopt_long_only argv)) /\
  binarize p
  = if existsb (fun r => is_option CMD_BINARIZE (fst r))
               (results (gk_getopt_long_only argv))
    then 1 else 0.
Proof.
  intros Hret. returned_run Hret params Hloop Hfiles.
  destruct (get_datafiles_returned _ _ _ _ _ _ _ Hfiles)
    as (_ & _ & -> & -> & _).
  rewrite (looped_outfile _ _ _ Hloop), (looped_binarize _ _ _ Hloop).
  split; [| reflexivity].
  now destruct (last_value CMD_OUTFILE (results (gk_getopt_long_only argv))).
Qed.

Lemma X5_witness :
  let p := mk_params GK_CSR_FMT_CLUTO 0 1 (Some "b.txt") None 7 2
             (Some "model.bin") (Some "old.csr") in
  snd (parse_cmdline (Getopt.gk_getopt_long_only Getopt.PERMUTE) every_file
         argv_repeated) = Returned p /\
  (outfile p
   = last_value CMD_OUTFILE
       (results (Getopt.gk_getopt_long_only Getopt.PERMUTE argv_repeated)) /\
   binarize p
   = if existsb (fun r => is_option CMD_BINARIZE (fst r))
                (results (Getopt.gk_getopt_long_only Getopt.PERMUTE
                            argv_repeated))
     then 1 else 0).
Proof.
  split.
  - reflexivity.
  - exact (X5_outfile_and_binarize
             (Getopt.gk_getopt_long_only Getopt.PERMUTE) every_file
             argv_repeated _ eq_refl).
Defined.

(** X6.  In a returned [params_t], [readvals] is 0 if [-ifmt] was handed
    over with the value [csrnv] at any point and 1 if not; [ifmt] is the
    CSR code if there was no [-ifmt], and otherwise the id that the value
    of the last [-ifmt] has in [ifmt_options], with the no-ratings id
    replaced by the CSR code. *)
Theorem X6_format_and_readvals
        (gk_getopt_long_only : list string -> getopt_run)
        (file_exists : string -> bool) (argv : list string) (p : params_t) :
  snd (parse_cmdline gk_getopt_long_only file_exists argv) = Returned p ->
  readvals p
  = (if existsb is_csrnv (results (gk_getopt_long_only argv))
     then 0 else 1) /\
  match last_value CMD_IFMT (results (gk_getopt_long_only argv)) with
  | Some v => exists id, gk_GetStringID ifmt_options v = Some id /\
                         ifmt p = stored_format id
  | None => ifmt p = GK_CSR_FMT_CSR
  end.
Proof.
  intros Hret. returned_run Hret params Hloop Hfiles.
  destruct (get_datafiles_returned _ _ _ _ _ _ _ Hfiles)
    as (-> & -> & _).
  split; [exact (looped_readvals_value _ _ _ Hloop) |].
  exact (looped_ifmt _ _ _ Hloop).
Qed.

Lemma X6_witness :
  let p := mk_params GK_CSR_FMT_CLUTO 0 1 (Some "b.txt") None 7 2
             (Some "model.bin") (Some "old.csr") in
  snd (parse_cmdline (Getopt.gk_getopt_long_only Getopt.PERMUTE) every_file
         argv_repeated) = Returned p /\
  (readvals p
   = (if existsb is_csrnv
                 (results (Getopt.gk_getopt_long_only Getopt.PERMUTE
                             argv_repeated))
      then 0 else 1) /\
   match last_value CMD_IFMT
           (results (Getopt.gk_getopt_long_only Getopt.PERMUTE
                       argv_repeated))
   with
   | Some v => exists id, gk_GetStringID ifmt_options v = Some id /\
                          ifmt p = stored_format id
   | None => ifmt p = GK_CSR_FMT_CSR
   end).
Proof.
  split.
  - reflexivity.
  - exact (X6_format_and_readvals
             (Getopt.gk_getopt_long_only Getopt.PERMUTE) every_file
             argv_repeated _ eq_refl).
Defined.

(** ** The files of a run that returns *)

(** X7.  When [parse_cmdline] returns, [mdlfile] is the token at
    [gk_optind], [trnfile] the next one, and [tstfile] the one after that
    if [argc - gk_optind] is 3 and null if not; the run has printed
    nothing, and it has called [gk_fexists] once for each of these fields
    that is set, in that order, and on nothing else. *)
Theorem X7_returned_files_and_lookups
        (gk_getopt_long_only : list string -> getopt_run)
        (file_exists : string -> bool) (argv : list string)
        (log : list event) (p : params_t) :
  parse_cmdline gk_getopt_long_only file_exists argv = (log, Returned p) ->
  mdlfile p = nth_error (end_argv (gk_getopt_long_only argv))
                        (end_optind (gk_getopt_long_only argv)) /\
  trnfile p = nth_error (end_argv (gk_getopt_long_only argv))
                        (S (end_optind (gk_getopt_long_only argv))) /\
  tstfile p = (if file_count argv (gk_getopt_long_only argv) =? 3
               then nth_error (end_argv (gk_getopt_long_only argv))
                              (S (S (end_optind (gk_getopt_long_only argv))))
               else None) /\
  log = map Fexists (files_of p).
Proof.
  intros Hrun.
  apply parse_cmdline_returned in Hrun as (params & Hloop & Hfiles).
  apply option_loop_returned in Hloop.
  destruct (looped_files _ _ _ Hloop) as (Htst & _ & _).
  destruct (get_datafiles_returned_files _ _ _ _ _ _ _ Hfiles Htst)
    as (_ & Hm & Ht & Hx & Hlog).
  now repeat split.
Qed.

Lemma X7_witness :
  let p := mk_params GK_CSR_FMT_IJV 1 0 (Some "out.txt") (Some "test.csr")
             5 0 (Some "model.bin") (Some "old.csr") in
  let scan := Getopt.gk_getopt_long_only Getopt.PERMUTE argv_three in
  parse_cmdline (Getopt.gk_getopt_long_only Getopt.PERMUTE) every_file
    argv_three
  = ([Fexists "model.bin"; Fexists "old.csr"; Fexists "test.csr"],
     Returned p) /\
  (mdlfile p = nth_error (end_argv scan) (end_optind scan) /\
   trnfile p = nth_error (end_argv scan) (S (end_optind scan)) /\
   tstfile p = (if file_count argv_three scan =? 3
                then nth_error (end_argv scan) (S (S (end_optind scan)))
                else None) /\
   [Fexists "model.bin"; Fexists "old.csr"; Fexists "test.csr"]
   = map Fexists (files_of p)).
Proof.
  split.
  - reflexivity.
  - exact (X7_returned_files_and_lookups
             (Getopt.gk_getopt_long_only Getopt.PERMUTE) every_file
             argv_three _ _ eq_refl).
Defined.

(** ** What a run never does *)

(** X8.  In every run of [parse_cmdline], something is written on standard
    output only if the run ends in [exit(0)]; and a run that ends in
    [exit] ends with status 0 and has called [gk_fexists] on nothing.  So
    a run that returns or ends in [errexit] has printed nothing, and the
    usage and help exits never follow a look at the files. *)
Theorem X8_stdout_only_on_exit_0
        (gk_getopt_long_only : list string -> getopt_run)
        (file_exists : string -> bool) (argv : list string) :
  (forall text,
     In (Printf text)
        (fst (parse_cmdline gk_getopt_long_only file_exists argv)) ->
     snd (parse_cmdline gk_getopt_long_only file_exists argv) = Exit 0) /\
  (forall code,
     snd (parse_cmdline gk_getopt_long_only file_exists argv) = Exit code ->
     code = 0 /\
     forall path,
       ~ In (Fexists path)
            (fst (parse_cmdline gk_getopt_long_only file_exists argv))).
Proof.
  change (disciplined (parse_cmdline gk_getopt_long_only file_exists argv)).
  unfold parse_cmdline. cbv zeta.
  pose proof (option_loop_disciplined
                (results (gk_getopt_long_only argv)) defaults) as Hloop.
  destruct (option_loop (results (gk_getopt_long_only argv)) defaults)
    as [log [params | code | msg | u]] eqn:Heq; cbn [bind]; try exact Hloop.
  pose proof (option_loop_returned_log _ _ _ _ Heq) as ->.
  pose proof (get_datafiles_disciplined file_exists
                (Z.of_nat (length argv))
                (end_argv (gk_getopt_long_only argv))
                (end_optind (gk_getopt_long_only argv)) params) as Hfiles.
  now destruct (get_datafiles file_exists (Z.of_nat (length argv))
                  (end_argv (gk_getopt_long_only argv))
                  (end_optind (gk_getopt_long_only argv)) params).
Qed.

(** X9.  When the scanner returns a code for which the [switch] has no
    [case], with [gk_optarg] set, the options before it having been
    handled, the run prints [Illegal command-line option(s) <gk_optarg>]
    and ends with [exit(0)], whatever follows and whatever the files. *)
Theorem X9_code_without_case_is_illegal
        (gk_getopt_long_only : list string -> getopt_run)
        (file_exists : string -> bool) (argv : list string)
        (before after : list (getopt_ret * option string))
        (params : params_t) (z : Z) (v : string) :
  results (gk_getopt_long_only argv)
  = (before ++ (RetOther z, Some v) :: after)%list ->
  snd (option_loop before defaults) = Returned params ->
  parse_cmdline gk_getopt_long_only file_exists argv
  = ([Printf ("Illegal command-line option(s) " ++ v ++ nl)], Exit 0).
Proof.
  intros Hres Hbefore.
  rewrite (parse_cmdline_at _ _ _ _ _ _ _ _ Hres Hbefore).
  reflexivity.
Qed.

Lemma X9_witness :
  (results (scanner_other argv_two)
   = ([(RetVal CMD_BINARIZE, None)] ++ (RetOther 0, Some "-x") :: [])%list /\
   snd (option_loop [(RetVal CMD_BINARIZE, None)] defaults)
   = Returned (set_binarize 1 defaults)) /\
  parse_cmdline scanner_other every_file argv_two
  = ([Printf ("Illegal command-line option(s) " ++ "-x" ++ nl)], Exit 0).
Proof.
  split.
  - split; reflexivity.
  - exact (X9_code_without_case_is_illegal scanner_other every_file argv_two
             [(RetVal CMD_BINARIZE, None)] [] (set_binarize 1 defaults)
             0 "-x" eq_refl eq_refl).
Defined.

(** ** The file system *)


(** X11.  The run depends on the file system through the first three
    tokens from [gk_optind] on only: two file systems that agree on those
    give the same events and the same end. *)
Theorem X11_only_three_paths_matter
        (gk_getopt_long_only : list string -> getopt_run)
        (file_exists other : string -> bool) (argv : list string) :
  (forall tok,
     In tok (firstn 3 (positional (gk_getopt_long_only argv))) ->
     file_exists tok = other tok) ->
  parse_cmdline gk_getopt_long_only file_exists argv
  = parse_cmdline gk_getopt_long_only other argv.
Proof.
  intros Hagree. unfold parse_cmdline. cbv zeta.
  destruct (option_loop (results (gk_getopt_long_only argv)) defaults)
    as [log [params | code | msg | u]]; cbn [bind]; try reflexivity.
  now rewrite (get_datafiles_agree file_exists other _ _ _ params Hagree).
Qed.

Lemma X11_witness :
  (forall tok,
     In tok (firstn 3 (positional
                         (Getopt.gk_getopt_long_only Getopt.PERMUTE
                            argv_two))) ->
     every_file tok = two_files tok) /\
  parse_cmdline (Getopt.gk_getopt_long_only Getopt.PERMUTE) every_file
    argv_two
  = parse_cmdline (Getopt.gk_getopt_long_only Getopt.PERMUTE) two_files
      argv_two.
Proof.
  assert (Hagree : forall tok,
             In tok (firstn 3 (positional
                                 (Getopt.gk_getopt_long_only Getopt.PERMUTE
                                    argv_two))) ->
             every_file tok = two_files tok).
  { intros tok [<- | [<- | []]]; reflexivity. }
  split.
  - exact Hagree.
  - exact (X11_only_three_paths_matter
             (Getopt.gk_getopt_long_only Getopt.PERMUTE) every_file
             two_files argv_two Hagree).
Defined.

(** ** Diagnostics *)



(** ** The printing loop *)

(** X13.  The loop that prints a table ([helpstr], [shorthelpstr]) prints
    the lines before the first empty string, each followed by a newline,
    and stops there: whatever the table holds after the empty string is
    not printed. *)
Theorem X13_printing_stops_at_the_empty_line
        (lines rest : list string) :
  Forall (fun line => line <> EmptyString) lines ->
  print_table (lines ++ EmptyString :: rest)
  = (map (fun line => Printf (line ++ nl)) lines, Returned tt).
Proof.
  induction 1 as [| line lines Hline _ IH]; cbn [app print_table map];
    [reflexivity |].
  destruct line as [| c line]; [now destruct Hline |].
  cbn [String.length Nat.ltb Nat.leb]. rewrite IH. reflexivity.
Qed.

Lemma X13_witness :
  Forall (fun line => line <> EmptyString) [" "; " Usage:"] /\
  print_table ([" "; " Usage:"] ++ EmptyString :: ["   -help"])
  = (map (fun line => Printf (line ++ nl)) [" "; " Usage:"], Returned tt).
Proof.
  assert (H : Forall (fun line => line <> EmptyString) [" "; " Usage:"])
    by (repeat constructor; discriminate).
  split.
  - exact H.
  - exact (X13_printing_stops_at_the_empty_line
             [" "; " Usage:"] ["   -help"] H).
Defined.
